(** * No Emo Vibe API: device registry and diary store

    A shallow embedding of [api/models.py], [api/schemas.py] and the four
    request handlers of [api/main.py], with the relational store written
    out as explicit state.

    Conventions.
    - A Python [str] is the list of its code points ([str]); its length is
      the number of characters.  Python's [int] is [Z].
    - A [datetime] is naive (wall clock only) or aware (wall clock and
      offset from UTC); two such values are never equal in Python.
    - A table is the list of its rows in the order the store scans them;
      [.first()] is the first matching row of that scan.
    - A handler runs in one session: it maps the committed store to a
      result and the store committed afterwards.  [db.rollback()] gives
      back the store the session started from.
    - The schema is PostgreSQL's (the [activities] column is [JSONB]).  A
      string with a NUL character or a lone surrogate cannot be sent to
      the store: the statement raises, also when it is a SELECT.  The store
      enforces what [models.py] declares on a column: [nullable=False],
      [unique=True], [ForeignKey], the column's type and range (a 32-bit
      [Integer]), and the length of [String(n)], where characters beyond
      [n] are cut silently when all of them are spaces.  A column declared
      without a time zone keeps the wall clock of the session's time zone.
      Primary keys come from the table's sequence, which is taken not to
      run out.
    - A statement that fails carries all the violations its values make;
      [str(e)] is the message of one of them, and which one the store
      reports when there are several is left open.
    - An UPDATE writes the new version of a row behind the other rows.
    - ORDER BY fixes the order of rows with different keys only; the order
      of rows with one key is the executor's choice, a parameter [tie] of
      the listing.
    - The two clock readings of one flush ([default] of [created_at] and of
      [updated_at]) are one instant, passed to the handler as [now]. *)

From stdpp Require Import base strings gmap list sorting.
From Stdlib Require Import ZArith NArith Ascii.

Local Open Scope Z_scope.
Local Open Scope string_scope.

(** ** Python values *)

(** A [str]: its characters, as code points. *)
Definition str := list N.

(** The [str] of an ASCII literal. *)
Definition text (s : string) : str :=
  Ascii.N_of_ascii <$> String.list_ascii_of_string s.

(** A character the driver can send: not NUL and not a surrogate. *)
Definition sendable_char (c : N) : bool :=
  negb (N.eqb c 0) && negb (N.leb 0xD800 c && N.leb c 0xDFFF).

Definition sendable (s : str) : bool := forallb sendable_char s.

Inductive datetime :=
  | Naive (wall : Z)
  | Aware (wall : Z) (utcoffset : Z).

(** [a == b] on datetimes: a naive and an aware one are never equal, two
    aware ones are compared as instants. *)
Definition datetime_eq (a b : datetime) : bool :=
  match a, b with
  | Naive x, Naive y => Z.eqb x y
  | Aware x o, Aware y p => Z.eqb (x - o) (y - p)
  | _, _ => false
  end.

(** The session's time zone: the wall clock it shows for an instant, and
    the instant it reads a wall clock as. *)
Record SessionZone := {
  wall_clock : Z → Z;
  instant_of : Z → Z
}.

Definition utc : SessionZone := {| wall_clock := id; instant_of := id |}.

(** What an attribute of a model instance or an entry of a payload [dict]
    can hold. *)
Inductive Value :=
  | VNone
  | VInt (n : Z)
  | VStr (s : str)
  | VDateTime (d : datetime)
  | VList (l : list str).

#[global] Instance datetime_eq_dec : EqDecision datetime.
Proof. solve_decision. Defined.

#[global] Instance Value_eq_dec : EqDecision Value.
Proof. solve_decision. Defined.

(** [a == b] on values, as the unit of work compares the loaded and the
    current value of an attribute. *)
Definition py_eq (a b : Value) : bool :=
  match a, b with
  | VNone, VNone => true
  | VInt x, VInt y => Z.eqb x y
  | VStr s, VStr s' => bool_decide (s = s')
  | VDateTime d, VDateTime d' => datetime_eq d d'
  | VList l, VList l' => bool_decide (l = l')
  | _, _ => false
  end.

Definition of_optional {A} (inj : A -> Value) (o : option A) : Value :=
  match o with
  | Some a => inj a
  | None => VNone
  end.

(** ** Failures *)

(** What the store or its driver raises. *)
Inductive DBError :=
  | UnsendableString
  | NotNullViolation (column : string)
  | StringDataRightTruncation (column : string)
  | NumericValueOutOfRange (column : string)
  | JsonTextRefused (column : string)
  | UniqueViolation (column : string)
  | ForeignKeyViolation (column : string)
  | DataError (column : string).

(** [detail] of an [HTTPException]: a fixed text, or the f-string of a
    prefix and [str(e)], where [e] is one of the violations [es] of the
    statement that failed. *)
Inductive Detail :=
  | Text (s : string)
  | TextWithError (prefix : string) (es : list DBError).

Record HTTPException := { status_code : Z; detail : Detail }.

(** A statement either yields a value or raises. *)
Definition flush_bind {E A B} (m : E + A) (k : A -> E + B) : E + B :=
  match m with
  | inl e => inl e
  | inr a => k a
  end.

Notation "'let*' x ':=' m 'in' k" := (flush_bind m (fun x => k))
  (at level 10, x name, m at level 100, k at level 200).

(** The columns of one statement: the values kept, or every violation. *)
Fixpoint collect (rs : list (DBError + Value))
  : list DBError + list Value :=
  match rs with
  | [] => inr []
  | inr v :: rs =>
      match collect rs with
      | inr vs => inr (v :: vs)
      | inl es => inl es
      end
  | inl e :: rs =>
      match collect rs with
      | inr _ => inl [e]
      | inl es => inl (e :: es)
      end
  end.

(** ** Column types *)

Inductive ColumnType :=
  | Key
  | Varchar (n : nat)
  | Timestamp
  | TimestampTz
  | Int4
  | Jsonb
  | PgText
  | Unmapped.

(** [String(n)]: what the store keeps of a string, if it takes it. *)
Definition fit (n : nat) (s : str) : option str :=
  if bool_decide (length s ≤ n)%nat then Some s
  else if forallb (N.eqb 32) (drop n s) then Some (take n s)
  else None.

Definition in_int4 (n : Z) : bool :=
  Z.leb (-2147483648) n && Z.leb n 2147483647.

(** What a timestamp column without time zone keeps of a datetime. *)
Definition stored_date (tz : SessionZone) (d : datetime) : Z :=
  match d with
  | Naive w => w
  | Aware w o => wall_clock tz (w - o)
  end.

Definition high_surrogate (c : N) : bool :=
  N.leb 0xD800 c && N.leb c 0xDBFF.

Definition low_surrogate (c : N) : bool :=
  N.leb 0xDC00 c && N.leb c 0xDFFF.

(** What a JSONB column keeps of a string.  The serializer writes a
    surrogate as an escape; the store reads a high and a low one in a row
    as the character the pair encodes and refuses a NUL and a surrogate on
    its own. *)
Fixpoint json_kept (s : str) : option str :=
  match s with
  | [] => Some []
  | c :: r =>
      if N.eqb c 0 then None
      else if high_surrogate c then
        match r with
        | l :: r' =>
            if low_surrogate l
            then cons (0x10000 + (c - 0xD800) * 0x400 + (l - 0xDC00))%N
                   <$> json_kept r'
            else None
        | [] => None
        end
      else if low_surrogate c then None
      else cons c <$> json_kept r
  end.

(** What the store keeps for a value assigned to a column of type [ty],
    or what it raises.  A kept timestamp with time zone is the instant, at
    offset 0; one without is the wall clock.  The rows of this model hold
    a key, a date and both timestamps always, so NULL is refused there. *)
Definition store_as (tz : SessionZone) (ty : ColumnType) (c : string)
    (v : Value) : DBError + Value :=
  match ty, v with
  | Key, VInt n => inr (VInt n)
  | Int4, VInt n =>
      if in_int4 n then inr (VInt n) else inl (NumericValueOutOfRange c)
  | Varchar n, VStr s =>
      if sendable s then
        match fit n s with
        | Some s' => inr (VStr s')
        | None => inl (StringDataRightTruncation c)
        end
      else inl UnsendableString
  | Timestamp, VDateTime d => inr (VDateTime (Naive (stored_date tz d)))
  | TimestampTz, VDateTime (Aware w o) => inr (VDateTime (Aware (w - o) 0))
  | TimestampTz, VDateTime (Naive w) =>
      inr (VDateTime (Aware (instant_of tz w) 0))
  | Jsonb, VList l =>
      match mapM json_kept l with
      | Some l' => inr (VList l')
      | None => inl (JsonTextRefused c)
      end
  | Jsonb, VNone => inr VNone
  | PgText, VStr s =>
      if sendable s then inr (VStr s) else inl UnsendableString
  | PgText, VNone => inr VNone
  | Unmapped, _ => inr v
  | _, VNone => inl (NotNullViolation c)
  | _, _ => inl (DataError c)
  end.

(** ** models.py *)

Module User.
Record t := {
  user_id : Z;
  device_id : str;
  created_at : Z;
  updated_at : Z
}.

(** [device_id = Column(String(255), unique=True, nullable=False)] *)
Definition device_id_max : nat := 255.
End User.

Module DiaryEntry.
(** A row.  [entry_date] is the wall clock the column keeps, [created_at]
    and [updated_at] are instants. *)
Record t := {
  entry_id : Z;
  user_id : Z;
  entry_uuid : str;
  entry_date : Z;
  mood_score : Z;
  mood_percentage : Z;
  activities : option (list str);
  notes : option str;
  created_at : Z;
  updated_at : Z
}.

(** [entry_uuid = Column(String(36), nullable=False)] *)
Definition entry_uuid_max : nat := 36.

(** The mapped columns, in declaration order. *)
Definition columns : list string :=
  ["entry_id"; "user_id"; "entry_uuid"; "entry_date"; "mood_score";
   "mood_percentage"; "activities"; "notes"; "created_at"; "updated_at"].

Definition column_type (c : string) : ColumnType :=
  if String.eqb c "entry_id" then Key
  else if String.eqb c "user_id" then Key
  else if String.eqb c "entry_uuid" then Varchar entry_uuid_max
  else if String.eqb c "entry_date" then Timestamp
  else if String.eqb c "mood_score" then Int4
  else if String.eqb c "mood_percentage" then Int4
  else if String.eqb c "activities" then Jsonb
  else if String.eqb c "notes" then PgText
  else if String.eqb c "created_at" then TimestampTz
  else if String.eqb c "updated_at" then TimestampTz
  else Unmapped.

(** What the store keeps for a value assigned to column [c]. *)
Definition store_value (tz : SessionZone) (c : string) (v : Value)
  : DBError + Value :=
  store_as tz (column_type c) c v.

(** The values a row holds, column by column, as an instance loads them. *)
Definition row_values (r : t) : list Value :=
  [VInt (entry_id r); VInt (user_id r); VStr (entry_uuid r);
   VDateTime (Naive (entry_date r)); VInt (mood_score r);
   VInt (mood_percentage r); of_optional VList (activities r);
   of_optional VStr (notes r); VDateTime (Aware (created_at r) 0);
   VDateTime (Aware (updated_at r) 0)].

Definition as_list (v : Value) : option (option (list str)) :=
  match v with
  | VList l => Some (Some l)
  | VNone => Some None
  | _ => None
  end.

Definition as_str (v : Value) : option (option str) :=
  match v with
  | VStr s => Some (Some s)
  | VNone => Some None
  | _ => None
  end.

(** The row that holds the given kept values. *)
Definition of_values (vs : list Value) : option t :=
  match vs with
  | [VInt i; VInt u; VStr uu; VDateTime (Naive d); VInt ms; VInt mp; a; n;
     VDateTime (Aware c _); VDateTime (Aware up _)] =>
      a' ← as_list a; n' ← as_str n;
      Some {| entry_id := i; user_id := u; entry_uuid := uu;
              entry_date := d; mood_score := ms; mood_percentage := mp;
              activities := a'; notes := n'; created_at := c;
              updated_at := up |}
  | _ => None
  end.

(** The attribute dictionary of the instance loaded from a row. *)
Definition load (r : t) : gmap string Value :=
  list_to_map (zip columns (row_values r)).

(** Reading one column out of an instance, as the store receives it.  An
    attribute that was never set is sent as NULL. *)
Definition attr (o : gmap string Value) (c : string) : Value :=
  default VNone (o !! c).

Definition column_values (o : gmap string Value) : list Value :=
  attr o <$> columns.

(** INSERT: every column is converted and checked. *)
Definition store_values (tz : SessionZone) (cs : list string)
    (news : list Value) : list DBError + list Value :=
  collect (zip_with (store_value tz) cs news).

(** The row the store keeps for a new instance, or what it raises. *)
Definition to_row (tz : SessionZone) (o : gmap string Value)
  : list DBError + t :=
  let* vs := store_values tz columns (column_values o) in
  match of_values vs with
  | Some r => inr r
  | None => inl [DataError "row"]
  end.

(** UPDATE: a column whose current value equals the loaded one is not in
    the SET clause and keeps what the row holds; the others are converted
    and checked. *)
Definition cell (tz : SessionZone) (c : string) (old new : Value)
  : DBError + Value :=
  if py_eq old new then inr old else store_value tz c new.

Definition update_values (tz : SessionZone) (cs : list string)
    (olds news : list Value) : list DBError + list Value :=
  collect (zip_with (λ c on, cell tz c on.1 on.2) cs (zip olds news)).

(** No attribute of the instance differs from what was loaded. *)
Definition unchanged (olds news : list Value) : bool :=
  forallb (λ on, py_eq on.1 on.2) (zip olds news).
End DiaryEntry.

(** ** schemas.py *)

Module UserCreate.
Record t := { device_id : str }.
End UserCreate.

Module DiaryEntryCreate.
(** The parsed request: the defaults (no activities, empty notes) are already
    filled in,
    an explicit [null] is [None]. *)
Record t := {
  entry_uuid : str;
  entry_date : datetime;
  mood_score : Z;
  mood_percentage : Z;
  activities : option (list str);
  notes : option str;
  device_id : str
}.
End DiaryEntryCreate.

Module DiaryEntryUpdate.
(** Every field is [Optional[...] = None].  The outer [option] records
    whether the request set the field ([None]: unset, the default
    applies); the inner one is the value set, [None] for an explicit
    [null]. *)
Record t := {
  entry_date : option (option datetime);
  mood_score : option (option Z);
  mood_percentage : option (option Z);
  activities : option (option (list str));
  notes : option (option str)
}.

Definition item {A} (name : string) (inj : A -> Value)
    (f : option (option A)) : list (string * Value) :=
  match f with
  | Some v => [(name, of_optional inj v)]
  | None => []
  end.

(** [entry_data.dict(exclude_unset=True)]: the fields the request set, in
    declaration order, with the values set. *)
Definition dict_exclude_unset (d : t) : list (string * Value) :=
  item "entry_date" VDateTime (entry_date d)
  ++ item "mood_score" VInt (mood_score d)
  ++ item "mood_percentage" VInt (mood_percentage d)
  ++ item "activities" VList (activities d)
  ++ item "notes" VStr (notes d).
End DiaryEntryUpdate.

Record APIResponse := {
  success : bool;
  message : string;
  data : option (list (string * Value))
}.

(** ** What a handler hands back *)

(** A handler returns an [APIResponse] or, for [get_diary_entries], the
    list of rows the query produced. *)
Inductive Response :=
  | Envelope (r : APIResponse)
  | Entries (l : list DiaryEntry.t).

Inductive Outcome :=
  | Returns (r : Response)
  | Raises (e : HTTPException).

(** ** The store *)

Record Store := {
  users : list User.t;
  diary_entries : list DiaryEntry.t;
  users_seq : Z;
  diary_entries_seq : Z
}.

Definition empty_store : Store :=
  {| users := []; diary_entries := []; users_seq := 1;
     diary_entries_seq := 1 |}.

(** [db.query(User).filter(User.device_id == device_id).first()]: the
    statement raises when the driver cannot send [device_id]. *)
Definition query_user (db : Store) (device_id : str)
  : list DBError + option User.t :=
  if sendable device_id
  then inr (snd <$> list_find (λ u, User.device_id u = device_id) (users db))
  else inl [UnsendableString].

(** [db.query(DiaryEntry).filter(DiaryEntry.user_id == user_id,
    DiaryEntry.entry_uuid == entry_uuid).first()], with the position of the
    row in its table. *)
Definition query_entry (db : Store) (user_id : Z) (entry_uuid : str)
  : list DBError + option (nat * DiaryEntry.t) :=
  if sendable entry_uuid
  then inr (list_find (λ e, DiaryEntry.user_id e = user_id
                            ∧ DiaryEntry.entry_uuid e = entry_uuid)
                      (diary_entries db))
  else inl [UnsendableString].

(** The executor's choice between two rows of one date: [tie e x] says
    that [e] comes out in front of [x]. *)
Definition TieBreak := DiaryEntry.t → DiaryEntry.t → bool.

(** ORDER BY entry_date DESC.  The query names no other key: a row goes in
    front of the first row that is earlier, or that has its date and that
    the executor puts behind it. *)
Fixpoint insert_desc (tie : TieBreak) (e : DiaryEntry.t)
    (l : list DiaryEntry.t) : list DiaryEntry.t :=
  match l with
  | [] => [e]
  | x :: r =>
      if Z.ltb (DiaryEntry.entry_date x) (DiaryEntry.entry_date e)
      then e :: x :: r
      else if Z.eqb (DiaryEntry.entry_date x) (DiaryEntry.entry_date e)
              && tie e x
      then e :: x :: r
      else x :: insert_desc tie e r
  end.

Definition order_by_entry_date_desc (tie : TieBreak)
    (l : list DiaryEntry.t) : list DiaryEntry.t :=
  foldr (insert_desc tie) [] l.

(** An executor that leaves rows of one date as the scan produced them. *)
Definition scan_order : TieBreak := λ _ _, true.

(** INSERT INTO users: the sequence gives the key, the column defaults give
    the timestamps, and the row holds what the column keeps of the
    device id. *)
Definition insert_user (db : Store) (device_id : str) (now : Z)
  : list DBError + (User.t * Store) :=
  if sendable device_id then
    match fit User.device_id_max device_id with
    | None => inl [StringDataRightTruncation "device_id"]
    | Some kept =>
        if bool_decide (Exists (λ u, User.device_id u = kept) (users db))
        then inl [UniqueViolation "device_id"]
        else
          let u := {| User.user_id := users_seq db; User.device_id := kept;
                      User.created_at := now; User.updated_at := now |} in
          inr (u, {| users := users db ++ [u];
                     diary_entries := diary_entries db;
                     users_seq := users_seq db + 1;
                     diary_entries_seq := diary_entries_seq db |})
    end
  else inl [UnsendableString].

(** [user_id = Column(Integer, ForeignKey("users.user_id"))] *)
Definition references_user (db : Store) (r : DiaryEntry.t)
  : list DBError + DiaryEntry.t :=
  if bool_decide (Exists (λ u, User.user_id u = DiaryEntry.user_id r)
                         (users db))
  then inr r
  else inl [ForeignKeyViolation "user_id"].

(** INSERT INTO diary_entries for a new instance: attributes the
    constructor did not receive take the sequence value and the column
    defaults. *)
Definition insert_entry (tz : SessionZone) (db : Store)
    (o : gmap string Value) (now : Z)
  : list DBError + (DiaryEntry.t * Store) :=
  let defaults : gmap string Value :=
    <["entry_id" := VInt (diary_entries_seq db)]>
    (<["created_at" := VDateTime (Aware now 0)]>
    (<["updated_at" := VDateTime (Aware now 0)]> ∅)) in
  let* r := DiaryEntry.to_row tz (o ∪ defaults) in
  let* r := references_user db r in
  inr (r, {| users := users db;
             diary_entries := diary_entries db ++ [r];
             users_seq := users_seq db;
             diary_entries_seq := diary_entries_seq db + 1 |}).

(** The flush of a loaded instance at [db.commit()].  No attribute
    changed: no UPDATE is sent and the row stays as it is.  Otherwise the
    changed columns are written, [onupdate] sets [updated_at] unless the SET
    clause already holds it, the reference to the user is checked when it
    changed, and the new version of the row goes behind the other rows. *)
Definition flush_update (tz : SessionZone) (db : Store) (i : nat)
    (row : DiaryEntry.t) (o : gmap string Value) (now : Z)
  : list DBError + (DiaryEntry.t * Store) :=
  let olds := DiaryEntry.row_values row in
  let news := DiaryEntry.column_values o in
  if DiaryEntry.unchanged olds news then inr (row, db)
  else
    let* vs := DiaryEntry.update_values tz DiaryEntry.columns olds news in
    let vs :=
      if py_eq (VDateTime (Aware (DiaryEntry.updated_at row) 0))
               (DiaryEntry.attr o "updated_at")
      then <[9%nat := VDateTime (Aware now 0)]> vs
      else vs in
    match DiaryEntry.of_values vs with
    | None => inl [DataError "row"]
    | Some r =>
        let* r :=
          if bool_decide (DiaryEntry.user_id r = DiaryEntry.user_id row)
          then inr r
          else references_user db r in
        inr (r, {| users := users db;
                   diary_entries := delete i (diary_entries db) ++ [r];
                   users_seq := users_seq db;
                   diary_entries_seq := diary_entries_seq db |})
    end.

(** [setattr(db_entry, field, value)] *)
Definition setattr (o : gmap string Value) (field : string) (value : Value)
  : gmap string Value :=
  <[field := value]> o.

(** ** main.py *)

Definition http (code : Z) (d : Detail) : Outcome :=
  Raises {| status_code := code; detail := d |}.

Definition ok (msg : string) (payload : list (string * Value)) : Outcome :=
  Returns (Envelope {| success := true; message := msg;
                       data := Some payload |}).

(** [register_device] (main.py, 31-56).  Whatever the lookup or the
    commit raises reaches [except Exception]: [db.rollback()], then status
    500. *)
Definition register_device (user_data : UserCreate.t) (now : Z) (db : Store)
  : Outcome * Store :=
  match query_user db (UserCreate.device_id user_data) with
  | inl e => (http 500 (TextWithError "Registration failed: " e), db)
  | inr (Some existing_user) =>
      (ok "Device already exists"
          [("user_id", VInt (User.user_id existing_user));
           ("device_id", VStr (User.device_id existing_user))],
       db)
  | inr None =>
      match insert_user db (UserCreate.device_id user_data) now with
      | inr (db_user, db') =>
          (ok "Device registered successfully"
              [("user_id", VInt (User.user_id db_user));
               ("device_id", VStr (User.device_id db_user))],
           db')
      | inl e =>
          (http 500 (TextWithError "Registration failed: " e), db)
      end
  end.

(** [create_diary_entry] (main.py, 60-101).  The 404 and the 409 are
    raised before anything is added to the session and pass through
    [except HTTPException: raise]; what a statement raises becomes status
    500 after [db.rollback()]. *)
Definition create_diary_entry (tz : SessionZone)
    (entry_data : DiaryEntryCreate.t) (now : Z) (db : Store)
  : Outcome * Store :=
  match query_user db (DiaryEntryCreate.device_id entry_data) with
  | inl e => (http 500 (TextWithError "Upload failed: " e), db)
  | inr None => (http 404 (Text "Device not registered"), db)
  | inr (Some user) =>
      match query_entry db (User.user_id user)
                        (DiaryEntryCreate.entry_uuid entry_data) with
      | inl e => (http 500 (TextWithError "Upload failed: " e), db)
      | inr (Some _) => (http 409 (Text "Diary entry already exists"), db)
      | inr None =>
          let db_entry : gmap string Value :=
            <["user_id" := VInt (User.user_id user)]>
            (<["entry_uuid" :=
                 VStr (DiaryEntryCreate.entry_uuid entry_data)]>
            (<["entry_date" :=
                 VDateTime (DiaryEntryCreate.entry_date entry_data)]>
            (<["mood_score" :=
                 VInt (DiaryEntryCreate.mood_score entry_data)]>
            (<["mood_percentage" :=
                 VInt (DiaryEntryCreate.mood_percentage entry_data)]>
            (<["activities" :=
                 of_optional VList (DiaryEntryCreate.activities entry_data)]>
            (<["notes" :=
                 of_optional VStr (DiaryEntryCreate.notes entry_data)]>
             ∅)))))) in
          match insert_entry tz db db_entry now with
          | inr (r, db') =>
              (ok "Diary entry uploaded successfully"
                  [("entry_id", VInt (DiaryEntry.entry_id r));
                   ("entry_uuid", VStr (DiaryEntry.entry_uuid r))],
               db')
          | inl e => (http 500 (TextWithError "Upload failed: " e), db)
          end
      end
  end.

(** [get_diary_entries] (main.py, 104-121).  The handler returns
    [entries], the rows of the query; what the lookup raises becomes status
    500.  It is a read: the store is not touched, so only the outcome is
    given. *)
Definition get_diary_entries (tie : TieBreak) (device_id : str)
    (db : Store) : Outcome :=
  match query_user db device_id with
  | inl e =>
      http 500 (TextWithError "Failed to retrieve diary entries: " e)
  | inr None => http 404 (Text "Device not registered")
  | inr (Some user) =>
      Returns (Entries
        (order_by_entry_date_desc tie
           (filter (λ e, DiaryEntry.user_id e = User.user_id user)
                   (diary_entries db))))
  end.

(** [update_diary_entry] (main.py, 123-162).  The loop assigns every item
    of [update_data] to the loaded instance; [db.commit()] flushes it. *)
Definition update_diary_entry (tz : SessionZone) (entry_uuid : str)
    (entry_data : DiaryEntryUpdate.t) (device_id : str) (now : Z)
    (db : Store) : Outcome * Store :=
  match query_user db device_id with
  | inl e => (http 500 (TextWithError "Update failed: " e), db)
  | inr None => (http 404 (Text "Device not registered"), db)
  | inr (Some user) =>
      match query_entry db (User.user_id user) entry_uuid with
      | inl e => (http 500 (TextWithError "Update failed: " e), db)
      | inr None => (http 404 (Text "Diary entry not found"), db)
      | inr (Some (i, row)) =>
          let update_data := DiaryEntryUpdate.dict_exclude_unset entry_data in
          let db_entry :=
            foldl (λ o item, setattr o item.1 item.2)
                  (DiaryEntry.load row) update_data in
          match flush_update tz db i row db_entry now with
          | inr (r, db') =>
              (ok "Diary entry updated successfully"
                  [("entry_id", VInt (DiaryEntry.entry_id r));
                   ("entry_uuid", VStr (DiaryEntry.entry_uuid r))],
               db')
          | inl e => (http 500 (TextWithError "Update failed: " e), db)
          end
      end
  end.


(** ** Properties claimed of the handlers, as definitions *)

(** The fields a [DiaryEntryUpdate] can carry, and those among them whose
    column is [nullable=False]. *)
Definition updatable_fields : list string :=
  ["entry_date"; "mood_score"; "mood_percentage"; "activities"; "notes"].


(** What identifies a diary entry and its owner. *)
Definition identity (e : DiaryEntry.t) : Z * Z * str * Z :=
  (DiaryEntry.entry_id e, DiaryEntry.user_id e, DiaryEntry.entry_uuid e,
   DiaryEntry.created_at e).

(** The response is an envelope of success flag, message and payload. *)
Definition has_envelope (o : Outcome) : bool :=
  match o with
  | Returns (Envelope _) => true
  | _ => false
  end.

(** The request sets [notes] and nothing else. *)
Definition only_notes (v : option str) : DiaryEntryUpdate.t :=
  {| DiaryEntryUpdate.entry_date := None;
     DiaryEntryUpdate.mood_score := None;
     DiaryEntryUpdate.mood_percentage := None;
     DiaryEntryUpdate.activities := None;
     DiaryEntryUpdate.notes := Some v |}.



(** The request sets no field at all. *)
Definition nothing_set : DiaryEntryUpdate.t :=
  {| DiaryEntryUpdate.entry_date := None;
     DiaryEntryUpdate.mood_score := None;
     DiaryEntryUpdate.mood_percentage := None;
     DiaryEntryUpdate.activities := None;
     DiaryEntryUpdate.notes := None |}.


(** A JSONB column takes every string of the list. *)
Definition json_ok (l : list str) : bool :=
  bool_decide (is_Some (mapM json_kept l)).

(** The rows of a store satisfy what [models.py] declares and hold only
    what the store can have taken. *)
Definition user_ok (u : User.t) : Prop :=
  sendable (User.device_id u)
  ∧ (length (User.device_id u) ≤ User.device_id_max)%nat.

Definition entry_ok (db : Store) (e : DiaryEntry.t) : Prop :=
  sendable (DiaryEntry.entry_uuid e)
  ∧ (length (DiaryEntry.entry_uuid e) ≤ DiaryEntry.entry_uuid_max)%nat
  ∧ in_int4 (DiaryEntry.mood_score e)
  ∧ in_int4 (DiaryEntry.mood_percentage e)
  ∧ from_option (forallb sendable) true (DiaryEntry.activities e)
  ∧ from_option sendable true (DiaryEntry.notes e)
  ∧ Exists (λ u, User.user_id u = DiaryEntry.user_id e) (users db).

Definition store_ok (db : Store) : Prop :=
  Forall user_ok (users db)
  ∧ NoDup (User.device_id <$> users db)
  ∧ Forall (entry_ok db) (diary_entries db).

#[global] Instance store_ok_dec db : Decision (store_ok db).
Proof. unfold store_ok, user_ok, entry_ok. apply _. Defined.

(** The request sets the field to [null]. *)
Definition sets_null {A} (f : option (option A)) : bool :=
  match f with
  | Some None => true
  | _ => false
  end.

(** The value the request sets the field to, if any, satisfies [P]. *)
Definition set_to {A} (P : A → bool) (f : option (option A)) : bool :=
  match f with
  | Some (Some a) => P a
  | _ => true
  end.

(** An update the store accepts: no required column is set to [null], the
    integers fit their columns and the strings can be sent and kept. *)
Definition update_ok (data : DiaryEntryUpdate.t) : Prop :=
  ¬ sets_null (DiaryEntryUpdate.entry_date data)
  ∧ ¬ sets_null (DiaryEntryUpdate.mood_score data)
  ∧ ¬ sets_null (DiaryEntryUpdate.mood_percentage data)
  ∧ set_to in_int4 (DiaryEntryUpdate.mood_score data)
  ∧ set_to in_int4 (DiaryEntryUpdate.mood_percentage data)
  ∧ set_to json_ok (DiaryEntryUpdate.activities data)
  ∧ set_to sendable (DiaryEntryUpdate.notes data).

(** A new entry the store accepts. *)
Definition create_ok (entry_data : DiaryEntryCreate.t) : Prop :=
  sendable (DiaryEntryCreate.entry_uuid entry_data)
  ∧ is_Some (fit DiaryEntry.entry_uuid_max
                 (DiaryEntryCreate.entry_uuid entry_data))
  ∧ in_int4 (DiaryEntryCreate.mood_score entry_data)
  ∧ in_int4 (DiaryEntryCreate.mood_percentage entry_data)
  ∧ from_option json_ok true (DiaryEntryCreate.activities entry_data)
  ∧ from_option sendable true (DiaryEntryCreate.notes entry_data).

(** ** Instances, rows and the merge of an update *)

(** What a field of the request leaves in an attribute that held [old]. *)
Definition field_value {A} (inj : A → Value) (f : option (option A))
    (old : Value) : Value :=
  match f with
  | Some v => of_optional inj v
  | None => old
  end.

(** The attributes of the loaded instance after the [setattr] loop, column
    by column. *)
Definition merged_values (data : DiaryEntryUpdate.t) (row : DiaryEntry.t)
  : list Value :=
  [VInt (DiaryEntry.entry_id row);
   VInt (DiaryEntry.user_id row);
   VStr (DiaryEntry.entry_uuid row);
   field_value VDateTime (DiaryEntryUpdate.entry_date data)
               (VDateTime (Naive (DiaryEntry.entry_date row)));
   field_value VInt (DiaryEntryUpdate.mood_score data)
               (VInt (DiaryEntry.mood_score row));
   field_value VInt (DiaryEntryUpdate.mood_percentage data)
               (VInt (DiaryEntry.mood_percentage row));
   field_value VList (DiaryEntryUpdate.activities data)
               (of_optional VList (DiaryEntry.activities row));
   field_value VStr (DiaryEntryUpdate.notes data)
               (of_optional VStr (DiaryEntry.notes row));
   VDateTime (Aware (DiaryEntry.created_at row) 0);
   VDateTime (Aware (DiaryEntry.updated_at row) 0)].

(** The value of a NOT NULL column after the request's field is merged. *)
Definition patch {A} (f : option (option A)) (old : A) : A :=
  match f with
  | Some (Some v) => v
  | _ => old
  end.

(** The value of a nullable column after the request's field is merged. *)
Definition patch_nullable {A} (f : option (option A)) (old : option A)
  : option A :=
  match f with
  | Some v => v
  | None => old
  end.

(** The same for [entry_date], of which the column keeps the wall clock,
    and for [activities], of which it keeps the JSON text unless the list
    is the one it holds already. *)
Definition patch_date (tz : SessionZone) (f : option (option datetime))
    (old : Z) : Z :=
  match f with
  | Some (Some d) => stored_date tz d
  | _ => old
  end.

Definition patch_activities (f : option (option (list str)))
    (old : option (list str)) : option (list str) :=
  match f with
  | Some (Some l) => if bool_decide (old = Some l) then old
                     else mapM json_kept l
  | Some None => None
  | None => old
  end.

(** The row an UPDATE of [row] with the fields of [data] writes at [now]. *)
Definition patched (tz : SessionZone) (data : DiaryEntryUpdate.t)
    (row : DiaryEntry.t) (now : Z) : DiaryEntry.t :=
  {| DiaryEntry.entry_id := DiaryEntry.entry_id row;
     DiaryEntry.user_id := DiaryEntry.user_id row;
     DiaryEntry.entry_uuid := DiaryEntry.entry_uuid row;
     DiaryEntry.entry_date :=
       patch_date tz (DiaryEntryUpdate.entry_date data)
                  (DiaryEntry.entry_date row);
     DiaryEntry.mood_score :=
       patch (DiaryEntryUpdate.mood_score data) (DiaryEntry.mood_score row);
     DiaryEntry.mood_percentage :=
       patch (DiaryEntryUpdate.mood_percentage data)
             (DiaryEntry.mood_percentage row);
     DiaryEntry.activities :=
       patch_activities (DiaryEntryUpdate.activities data)
                        (DiaryEntry.activities row);
     DiaryEntry.notes :=
       patch_nullable (DiaryEntryUpdate.notes data) (DiaryEntry.notes row);
     DiaryEntry.created_at := DiaryEntry.created_at row;
     DiaryEntry.updated_at := now |}.

(** [a] is listed no later than [b]: its date is not earlier. *)
Definition not_earlier (a b : DiaryEntry.t) : Prop :=
  (DiaryEntry.entry_date b ≤ DiaryEntry.entry_date a)%Z.

(** The user row a first registration of [device_id] inserts. *)
Definition new_user (device_id : str) (now : Z) (db : Store)
  : User.t :=
  {| User.user_id := users_seq db; User.device_id := device_id;
     User.created_at := now; User.updated_at := now |}.

(** ** Further vocabulary for the handlers *)

(** The row [create_diary_entry] writes for a request of [user] at [now]:
    the store's key and timestamps, and what the columns keep of the
    request's values. *)
Definition created_row (tz : SessionZone) (entry_data : DiaryEntryCreate.t)
    (user : User.t) (now : Z) (db : Store) : DiaryEntry.t :=
  {| DiaryEntry.entry_id := diary_entries_seq db;
     DiaryEntry.user_id := User.user_id user;
     DiaryEntry.entry_uuid :=
       default (DiaryEntryCreate.entry_uuid entry_data)
               (fit DiaryEntry.entry_uuid_max
                    (DiaryEntryCreate.entry_uuid entry_data));
     DiaryEntry.entry_date :=
       stored_date tz (DiaryEntryCreate.entry_date entry_data);
     DiaryEntry.mood_score := DiaryEntryCreate.mood_score entry_data;
     DiaryEntry.mood_percentage :=
       DiaryEntryCreate.mood_percentage entry_data;
     DiaryEntry.activities :=
       DiaryEntryCreate.activities entry_data ≫= mapM json_kept;
     DiaryEntry.notes := DiaryEntryCreate.notes entry_data;
     DiaryEntry.created_at := now;
     DiaryEntry.updated_at := now |}.

(** The store after [create_diary_entry] has written that row. *)
Definition store_with_entry (db : Store) (r : DiaryEntry.t) : Store :=
  {| users := users db;
     diary_entries := diary_entries db ++ [r];
     users_seq := users_seq db;
     diary_entries_seq := diary_entries_seq db + 1 |}.

(** The store after [register_device] has written a user row. *)
Definition store_with_user (db : Store) (u : User.t) : Store :=
  {| users := users db ++ [u];
     diary_entries := diary_entries db;
     users_seq := users_seq db + 1;
     diary_entries_seq := diary_entries_seq db |}.

(** The store after an UPDATE has replaced the row at position [i]. *)
Definition store_with_update (db : Store) (i : nat) (r : DiaryEntry.t)
  : Store :=
  {| users := users db;
     diary_entries := delete i (diary_entries db) ++ [r];
     users_seq := users_seq db;
     diary_entries_seq := diary_entries_seq db |}.

(** The entry belongs to [user_id] and carries [entry_uuid]. *)
Definition is_entry_of (user_id : Z) (entry_uuid : str)
    (e : DiaryEntry.t) : Prop :=
  DiaryEntry.user_id e = user_id ∧ DiaryEntry.entry_uuid e = entry_uuid.

(** Primary keys: every key is below its table's sequence and no two rows
    of a table share one. *)
Definition keys_ok (db : Store) : Prop :=
  Forall (λ u, User.user_id u < users_seq db) (users db)
  ∧ NoDup (User.user_id <$> users db)
  ∧ Forall (λ e, DiaryEntry.entry_id e < diary_entries_seq db)
           (diary_entries db)
  ∧ NoDup (DiaryEntry.entry_id <$> diary_entries db).

(** The stores the handlers can produce, starting from the empty one. *)
Inductive reachable (tz : SessionZone) : Store → Prop :=
  | reachable_empty : reachable tz empty_store
  | reachable_register user_data now db :
      reachable tz db → reachable tz (register_device user_data now db).2
  | reachable_create entry_data now db :
      reachable tz db →
      reachable tz (create_diary_entry tz entry_data now db).2
  | reachable_update entry_uuid entry_data device_id now db :
      reachable tz db →
      reachable tz
        (update_diary_entry tz entry_uuid entry_data device_id now db).2.

(** Tied entries of every listing follow one fixed order [before] on
    entries, whatever store the handlers have produced. *)
Definition ties_ordered_by (tz : SessionZone) (tie : TieBreak)
    (before : DiaryEntry.t → DiaryEntry.t → Prop) : Prop :=
  ∀ db device_id es,
    reachable tz db →
    get_diary_entries tie device_id db = Returns (Entries es) →
    ∀ (i j : nat) a b,
      (i < j)%nat → es !! i = Some a → es !! j = Some b →
      DiaryEntry.entry_date a = DiaryEntry.entry_date b →
      before a b.

(** The shapes a handler's outcome can take. *)
Definition success_envelope (o : Outcome) : Prop :=
  ∃ msg payload, o = ok msg payload.

Definition bare_entries (o : Outcome) : Prop :=
  ∃ es, o = Returns (Entries es).

Definition raises_status (codes : list Z) (o : Outcome) : Prop :=
  ∃ e, o = Raises e ∧ status_code e ∈ codes.

(** ** A small store *)

Definition demo_user : User.t :=
  {| User.user_id := 1; User.device_id := text "dev-a";
     User.created_at := 10; User.updated_at := 10 |}.

Definition demo_entry (id : Z) (uuid : string) (date : Z) : DiaryEntry.t :=
  {| DiaryEntry.entry_id := id; DiaryEntry.user_id := 1;
     DiaryEntry.entry_uuid := text uuid; DiaryEntry.entry_date := date;
     DiaryEntry.mood_score := 4; DiaryEntry.mood_percentage := 80;
     DiaryEntry.activities := Some [text "run"; text "meditate"];
     DiaryEntry.notes := Some []; DiaryEntry.created_at := 20;
     DiaryEntry.updated_at := 20 |}.

(** 2024-01-01, 2024-03-01 and 2024-02-01 as wall clocks (seconds). *)
Definition demo_entry_1 := demo_entry 1 "uuid-1" 1704067200.
Definition demo_entry_2 := demo_entry 2 "uuid-2" 1709251200.
Definition demo_entry_3 := demo_entry 3 "uuid-3" 1706745600.

Definition demo_store : Store :=
  {| users := [demo_user];
     diary_entries := [demo_entry_1; demo_entry_2; demo_entry_3];
     users_seq := 2; diary_entries_seq := 4 |}.

(** The request that creates such an entry. *)
Definition demo_create (uuid : string) (date : Z) : DiaryEntryCreate.t :=
  {| DiaryEntryCreate.entry_uuid := text uuid;
     DiaryEntryCreate.entry_date := Naive date;
     DiaryEntryCreate.mood_score := 4;
     DiaryEntryCreate.mood_percentage := 80;
     DiaryEntryCreate.activities := Some [text "run"; text "meditate"];
     DiaryEntryCreate.notes := Some [];
     DiaryEntryCreate.device_id := text "dev-a" |}.

(** Two entries of one owner and one date, created in one clock reading,
    and the store after the notes of the first were changed and changed
    back within that reading. *)
Definition tie_entry_1 := demo_entry 1 "uuid-1" 1704067200.
Definition tie_entry_2 := demo_entry 2 "uuid-2" 1704067200.

Definition tied_store : Store :=
  (create_diary_entry utc (demo_create "uuid-2" 1704067200) 20
     (create_diary_entry utc (demo_create "uuid-1" 1704067200) 20
        (register_device {| UserCreate.device_id := text "dev-a" |} 10
                         empty_store).2).2).2.

Definition retied_store : Store :=
  (update_diary_entry utc (text "uuid-1") (only_notes (Some []))
     (text "dev-a") 20
     (update_diary_entry utc (text "uuid-1") (only_notes (Some (text "x")))
        (text "dev-a") 20 tied_store).2).2.

(** A device id of 256 characters, and one of 255 characters and a
    space. *)
Definition long_device_id : str := replicate 256 97%N.


(** A device id the driver cannot send: it holds a NUL. *)
Definition nul_device_id : str := [100%N; 0%N].

(** The UPDATE of [row] takes the request: no required column is set to
    [null], and every value that differs from the one the row holds is one
    its column takes. *)
Definition accepted (data : DiaryEntryUpdate.t) (row : DiaryEntry.t)
  : bool :=
  negb (sets_null (DiaryEntryUpdate.entry_date data))
  && negb (sets_null (DiaryEntryUpdate.mood_score data))
  && negb (sets_null (DiaryEntryUpdate.mood_percentage data))
  && set_to (λ n, Z.eqb (DiaryEntry.mood_score row) n || in_int4 n)
            (DiaryEntryUpdate.mood_score data)
  && set_to (λ n, Z.eqb (DiaryEntry.mood_percentage row) n || in_int4 n)
            (DiaryEntryUpdate.mood_percentage data)
  && set_to (λ l, bool_decide (DiaryEntry.activities row = Some l)
                  || json_ok l)
            (DiaryEntryUpdate.activities data)
  && set_to (λ s, bool_decide (DiaryEntry.notes row = Some s) || sendable s)
            (DiaryEntryUpdate.notes data).

#[global] Instance update_ok_dec data : Decision (update_ok data).
Proof. unfold update_ok. apply _. Defined.

#[global] Instance create_ok_dec entry_data : Decision (create_ok entry_data).
Proof. unfold create_ok. apply _. Defined.

(** ** Strings and values *)

Section Values.

Lemma json_kept_sendable s : sendable s → json_kept s = Some s.
Proof.
  unfold sendable. induction s as [|c s IH]; [done|].
  cbn [forallb json_kept]. intros [Hc Hs]%andb_prop_elim.
  rewrite (IH Hs). revert Hc.
  unfold sendable_char, high_surrogate, low_surrogate.
  destruct (N.eqb_spec c 0); [done|].
  destruct (N.leb_spec 0xD800 c), (N.leb_spec c 0xDFFF),
    (N.leb_spec c 0xDBFF), (N.leb_spec 0xDC00 c); cbn; try done; lia.
Qed.

Lemma mapM_json_kept_sendable l :
  forallb sendable l → mapM json_kept l = Some l.
Proof.
  induction l as [|s l IH]; [done|].
  cbn [forallb]. intros [Hs Hl]%andb_prop_elim.
  cbn. by rewrite (json_kept_sendable s Hs), (IH Hl).
Qed.

Lemma json_ok_sendable l : forallb sendable l → json_ok l.
Proof.
  intros H. unfold json_ok. apply bool_decide_pack.
  rewrite mapM_json_kept_sendable by done. eauto.
Qed.

Lemma fit_short n s : (length s ≤ n)%nat → fit n s = Some s.
Proof. intros H. unfold fit. by rewrite bool_decide_eq_true_2. Qed.

Lemma fit_length n s s' : fit n s = Some s' → (length s' ≤ n)%nat.
Proof.
  unfold fit. case_bool_decide as Hn; [by intros [= <-]|].
  destruct (forallb _ _); [|done]. intros [= <-].
  rewrite length_take. lia.
Qed.

Lemma fit_sendable n s s' : sendable s → fit n s = Some s' → sendable s'.
Proof.
  unfold fit. case_bool_decide; [by intros ? [= <-]|].
  destruct (forallb _ _); [|done]. intros Hs [= <-].
  unfold sendable in *. rewrite <- (take_drop n s), forallb_app in Hs.
  by apply andb_prop_elim in Hs as [? _].
Qed.

Lemma datetime_eq_refl d : datetime_eq d d = true.
Proof. destruct d; cbn; apply Z.eqb_refl. Qed.

Lemma py_eq_refl v : py_eq v v = true.
Proof.
  destruct v; cbn; try done.
  - apply Z.eqb_refl.
  - by apply bool_decide_eq_true_2.
  - apply datetime_eq_refl.
  - by apply bool_decide_eq_true_2.
Qed.

Lemma collect_inr rs vs : collect rs = inr vs ↔ rs = inr <$> vs.
Proof.
  revert vs. induction rs as [|[e|v] rs IH]; intros vs; cbn.
  - split; [intros [= <-]|intros H]; [done|].
    by destruct vs.
  - split; [by destruct (collect rs)|].
    by destruct vs.
  - destruct (collect rs) as [es|ws] eqn:E.
    + split; [done|]. destruct vs as [|w vs]; [done|].
      intros [= -> H]. by apply IH in H.
    + split.
      * intros [= <-]. cbn. f_equal. by apply IH.
      * destruct vs as [|w vs]; [done|]. intros [= -> H].
        apply IH in H. by simplify_eq.
Qed.

Lemma collect_inl rs e :
  inl e ∈ rs → ∃ es, collect rs = inl es ∧ e ∈ es.
Proof.
  induction rs as [|r rs IH]; [by intros ?%elem_of_nil|].
  intros [<-|Hin]%elem_of_cons.
  - cbn. destruct (collect rs) as [es|ws]; eexists; split; try done;
      apply list_elem_of_here.
  - destruct (IH Hin) as (es & Hes & He).
    destruct r as [e'|v]; cbn; rewrite Hes; eexists; split; try done.
    by apply list_elem_of_further.
Qed.

Lemma collect_cases rs :
  (∃ vs, collect rs = inr vs) ∨ (∃ es, collect rs = inl es).
Proof. destruct (collect rs); eauto. Qed.

End Values.

(** ** Lookups *)

Section Lookups.
Context (db : Store).

Lemma query_user_Some device_id u :
  query_user db device_id = inr (Some u) →
  u ∈ users db ∧ User.device_id u = device_id ∧ sendable device_id.
Proof.
  unfold query_user. destruct (sendable device_id); [|done].
  intros [= H].
  destruct (list_find _ _) as [[i x]|] eqn:E; simplify_eq/=.
  apply list_find_Some in E as (Hi & HP & _).
  split; [by eapply list_elem_of_lookup_2 | done].
Qed.

Lemma query_user_None device_id :
  sendable device_id →
  (∀ u, u ∈ users db → User.device_id u ≠ device_id) →
  query_user db device_id = inr None.
Proof.
  intros Hs%Is_true_true H. unfold query_user. rewrite Hs. f_equal.
  apply fmap_None, list_find_None, Forall_forall. done.
Qed.

Lemma query_user_None_inv device_id :
  query_user db device_id = inr None →
  sendable device_id
  ∧ ∀ u, u ∈ users db → User.device_id u ≠ device_id.
Proof.
  unfold query_user. destruct (sendable device_id); [|done].
  intros [= H]. split; [done|].
  apply fmap_None, list_find_None in H. by rewrite Forall_forall in H.
Qed.

Lemma query_user_unsendable device_id :
  ¬ sendable device_id → query_user db device_id = inl [UnsendableString].
Proof.
  unfold query_user. by destruct (sendable device_id).
Qed.

Lemma query_user_registered device_id u :
  sendable device_id →
  u ∈ users db → User.device_id u = device_id →
  ∃ u', query_user db device_id = inr (Some u').
Proof.
  intros Hs%Is_true_true Hin Hd. unfold query_user. rewrite Hs.
  destruct (list_find _ _) as [[i x]|] eqn:E; [by eexists|].
  apply list_find_None in E. rewrite Forall_forall in E.
  by destruct (E u Hin).
Qed.

Lemma query_entry_Some user_id entry_uuid i e :
  query_entry db user_id entry_uuid = inr (Some (i, e)) →
  diary_entries db !! i = Some e
  ∧ DiaryEntry.user_id e = user_id
  ∧ DiaryEntry.entry_uuid e = entry_uuid.
Proof.
  unfold query_entry. destruct (sendable entry_uuid); [|done].
  intros [= H].
  apply list_find_Some in H as (Hi & [? ?] & _). done.
Qed.

Lemma query_entry_None user_id entry_uuid :
  sendable entry_uuid →
  Forall (λ e, ¬ is_entry_of user_id entry_uuid e) (diary_entries db) →
  query_entry db user_id entry_uuid = inr None.
Proof.
  intros Hs%Is_true_true H. unfold query_entry. rewrite Hs. f_equal.
  by apply list_find_None.
Qed.

Lemma query_entry_None_inv user_id entry_uuid :
  query_entry db user_id entry_uuid = inr None →
  Forall (λ e, ¬ is_entry_of user_id entry_uuid e) (diary_entries db).
Proof.
  unfold query_entry. destruct (sendable entry_uuid); [|done].
  intros [= H]. by apply list_find_None in H.
Qed.

Lemma query_entry_present user_id entry_uuid e :
  sendable entry_uuid →
  e ∈ diary_entries db →
  DiaryEntry.user_id e = user_id →
  DiaryEntry.entry_uuid e = entry_uuid →
  ∃ p, query_entry db user_id entry_uuid = inr (Some p).
Proof.
  intros Hs%Is_true_true Hin Hu He. unfold query_entry. rewrite Hs.
  destruct (list_find _ _) as [p|] eqn:E; [by eexists|].
  apply list_find_None in E. rewrite Forall_forall in E.
  destruct (E e Hin). done.
Qed.

Lemma query_entry_unsendable user_id entry_uuid :
  ¬ sendable entry_uuid →
  query_entry db user_id entry_uuid = inl [UnsendableString].
Proof.
  unfold query_entry. by destruct (sendable entry_uuid).
Qed.
End Lookups.

(** ** The merge of an update request into a loaded entry *)

Local Abbreviation assign_all inst items :=
  (foldl (λ o item, setattr o item.1 item.2) inst items).

Section Merge.
Import DiaryEntry.

Lemma load_values row : column_values (load row) = row_values row.
Proof. reflexivity. Qed.

Lemma assign_all_values data row :
  column_values
    (assign_all (load row) (DiaryEntryUpdate.dict_exclude_unset data))
  = merged_values data row.
Proof. destruct data as [[?|] [?|] [?|] [?|] [?|]]; reflexivity. Qed.

Lemma assign_all_updated_at data row :
  attr (assign_all (load row) (DiaryEntryUpdate.dict_exclude_unset data))
       "updated_at"
  = VDateTime (Aware (updated_at row) 0).
Proof. destruct data as [[?|] [?|] [?|] [?|] [?|]]; reflexivity. Qed.

Lemma cell_same tz c v : cell tz c v v = inr v.
Proof. unfold cell. by rewrite py_eq_refl. Qed.

Lemma update_values_merged tz data row :
  update_values tz columns (row_values row) (merged_values data row)
  = collect
      [inr (VInt (entry_id row)); inr (VInt (user_id row));
       inr (VStr (entry_uuid row));
       cell tz "entry_date" (VDateTime (Naive (entry_date row)))
         (field_value VDateTime (DiaryEntryUpdate.entry_date data)
                      (VDateTime (Naive (entry_date row))));
       cell tz "mood_score" (VInt (mood_score row))
         (field_value VInt (DiaryEntryUpdate.mood_score data)
                      (VInt (mood_score row)));
       cell tz "mood_percentage" (VInt (mood_percentage row))
         (field_value VInt (DiaryEntryUpdate.mood_percentage data)
                      (VInt (mood_percentage row)));
       cell tz "activities" (of_optional VList (activities row))
         (field_value VList (DiaryEntryUpdate.activities data)
                      (of_optional VList (activities row)));
       cell tz "notes" (of_optional VStr (notes row))
         (field_value VStr (DiaryEntryUpdate.notes data)
                      (of_optional VStr (notes row)));
       inr (VDateTime (Aware (created_at row) 0));
       inr (VDateTime (Aware (updated_at row) 0))].
Proof.
  unfold update_values, columns, row_values, merged_values.
  cbn [zip zip_with fst snd]. by rewrite !cell_same.
Qed.

Lemma cell_entry_date tz f old :
  cell tz "entry_date" (VDateTime (Naive old))
       (field_value VDateTime f (VDateTime (Naive old)))
  = if sets_null f then inl (NotNullViolation "entry_date")
    else inr (VDateTime (Naive (patch_date tz f old))).
Proof.
  destruct f as [[d|]|]; cbn; [|done|by rewrite cell_same].
  unfold cell. cbn. destruct d as [w|w o]; cbn; [|done].
  destruct (Z.eqb_spec old w); by subst.
Qed.

Lemma cell_int tz c f old :
  column_type c = Int4 →
  cell tz c (VInt old) (field_value VInt f (VInt old))
  = if sets_null f then inl (NotNullViolation c)
    else if set_to (λ n, Z.eqb old n || in_int4 n) f
    then inr (VInt (patch f old))
    else inl (NumericValueOutOfRange c).
Proof.
  intros Hc. destruct f as [[n|]|]; cbn; [| |by rewrite cell_same].
  - unfold cell, store_value. rewrite Hc. cbn.
    destruct (Z.eqb_spec old n); [by subst|]. cbn. by destruct (in_int4 n).
  - unfold cell, store_value. rewrite Hc. done.
Qed.

Lemma json_ok_mapM l :
  (if json_ok l then is_Some (mapM json_kept l)
   else mapM json_kept l = None).
Proof.
  unfold json_ok. case_bool_decide as E; [done|].
  destruct (mapM json_kept l); [|done]. destruct E; eauto.
Qed.

Lemma cell_activities tz f old :
  cell tz "activities" (of_optional VList old)
       (field_value VList f (of_optional VList old))
  = if set_to (λ l, bool_decide (old = Some l) || json_ok l) f
    then inr (of_optional VList (patch_activities f old))
    else inl (JsonTextRefused "activities").
Proof.
  destruct f as [[l|]|]; cbn; [| |by rewrite cell_same].
  - unfold cell, store_value. cbn.
    pose proof (json_ok_mapM l) as J.
    destruct old as [l0|]; cbn; repeat case_bool_decide; simplify_eq;
      cbn; try done;
      destruct (json_ok l); [destruct J as [? ->]|rewrite J| |];
      try done.
    + destruct J as [? ->]. done.
    + by rewrite J.
  - unfold cell. by destruct old.
Qed.

Lemma cell_notes tz f old :
  cell tz "notes" (of_optional VStr old)
       (field_value VStr f (of_optional VStr old))
  = if set_to (λ s, bool_decide (old = Some s) || sendable s) f
    then inr (of_optional VStr (patch_nullable f old))
    else inl UnsendableString.
Proof.
  destruct f as [[s|]|]; cbn; [| |by rewrite cell_same].
  - unfold cell, store_value. cbn.
    destruct old as [s0|]; cbn; repeat case_bool_decide; simplify_eq;
      cbn; try done; by destruct (sendable s).
  - unfold cell. by destruct old.
Qed.
End Merge.

Section Flush.
Import DiaryEntry.

Lemma references_user_inr db r r' :
  references_user db r = inr r' → r' = r.
Proof. unfold references_user. case_bool_decide; intros; by simplify_eq. Qed.

Lemma references_user_ok db r :
  Exists (λ u, User.user_id u = user_id r) (users db) →
  references_user db r = inr r.
Proof. intros H. unfold references_user. by rewrite bool_decide_eq_true_2. Qed.

Lemma update_values_cells tz data row :
  update_values tz columns (row_values row) (merged_values data row)
  = collect
      [inr (VInt (entry_id row)); inr (VInt (user_id row));
       inr (VStr (entry_uuid row));
       if sets_null (DiaryEntryUpdate.entry_date data)
       then inl (NotNullViolation "entry_date")
       else inr (VDateTime (Naive
              (patch_date tz (DiaryEntryUpdate.entry_date data)
                          (entry_date row))));
       if sets_null (DiaryEntryUpdate.mood_score data)
       then inl (NotNullViolation "mood_score")
       else if set_to (λ n, Z.eqb (mood_score row) n || in_int4 n)
                      (DiaryEntryUpdate.mood_score data)
       then inr (VInt (patch (DiaryEntryUpdate.mood_score data)
                             (mood_score row)))
       else inl (NumericValueOutOfRange "mood_score");
       if sets_null (DiaryEntryUpdate.mood_percentage data)
       then inl (NotNullViolation "mood_percentage")
       else if set_to (λ n, Z.eqb (mood_percentage row) n || in_int4 n)
                      (DiaryEntryUpdate.mood_percentage data)
       then inr (VInt (patch (DiaryEntryUpdate.mood_percentage data)
                             (mood_percentage row)))
       else inl (NumericValueOutOfRange "mood_percentage");
       if set_to (λ l, bool_decide (activities row = Some l) || json_ok l)
                 (DiaryEntryUpdate.activities data)
       then inr (of_optional VList
                   (patch_activities (DiaryEntryUpdate.activities data)
                                     (activities row)))
       else inl (JsonTextRefused "activities");
       if set_to (λ s, bool_decide (notes row = Some s) || sendable s)
                 (DiaryEntryUpdate.notes data)
       then inr (of_optional VStr
                   (patch_nullable (DiaryEntryUpdate.notes data)
                                   (notes row)))
       else inl UnsendableString;
       inr (VDateTime (Aware (created_at row) 0));
       inr (VDateTime (Aware (updated_at row) 0))].
Proof.
  rewrite update_values_merged, cell_entry_date, !cell_int by done.
  by rewrite cell_activities, cell_notes.
Qed.

Ltac split_fields :=
  repeat match goal with
    | |- context [sets_null ?f] => destruct (sets_null f)
    | |- context [set_to ?P ?f] => destruct (set_to P f)
    end.

Lemma update_values_accepted tz data row :
  accepted data row = true →
  update_values tz columns (row_values row) (merged_values data row)
  = inr (row_values (patched tz data row (updated_at row))).
Proof.
  rewrite update_values_cells. unfold accepted.
  split_fields; cbn; intros; (discriminate || reflexivity).
Qed.

Lemma update_values_refused tz data row :
  accepted data row = false →
  ∃ es,
    update_values tz columns (row_values row) (merged_values data row)
    = inl es.
Proof.
  rewrite update_values_cells. unfold accepted.
  split_fields; cbn; intros; (discriminate || eauto).
Qed.

Lemma of_values_patched tz data row t now :
  of_values (<[9%nat := VDateTime (Aware now 0)]>
               (row_values (patched tz data row t)))
  = Some (patched tz data row now).
Proof.
  unfold patched, row_values.
  cbn [entry_id user_id entry_uuid entry_date mood_score mood_percentage
       activities notes created_at updated_at].
  destruct (patch_activities _ _), (patch_nullable _ _); reflexivity.
Qed.

Lemma flush_update_merged tz db i row data now :
  flush_update tz db i row
    (assign_all (load row) (DiaryEntryUpdate.dict_exclude_unset data)) now
  = if unchanged (row_values row) (merged_values data row)
    then inr (row, db)
    else
      match update_values tz columns (row_values row)
                          (merged_values data row) with
      | inr _ => inr (patched tz data row now,
                      store_with_update db i (patched tz data row now))
      | inl es => inl es
      end.
Proof.
  unfold flush_update. cbv zeta.
  rewrite assign_all_values, assign_all_updated_at.
  destruct (unchanged _ _); [done|].
  destruct (accepted data row) eqn:A.
  - rewrite (update_values_accepted _ _ _ A). cbn [flush_bind].
    rewrite py_eq_refl, of_values_patched.
    rewrite bool_decide_eq_true_2 by done. done.
  - by destruct (update_values_refused tz _ _ A) as [es ->].
Qed.
End Flush.

Section Unchanged.
Import DiaryEntry.

Lemma py_eq_date tz old f :
  py_eq (VDateTime (Naive old))
        (field_value VDateTime f (VDateTime (Naive old))) = true →
  sets_null f = false ∧ patch_date tz f old = old.
Proof.
  destruct f as [[[w|w o]|]|]; cbn; try done.
  by intros ->%Z.eqb_eq.
Qed.

Lemma py_eq_int (P : Z → bool) old f :
  py_eq (VInt old) (field_value VInt f (VInt old)) = true →
  sets_null f = false
  ∧ set_to (λ n, Z.eqb old n || P n) f = true
  ∧ patch f old = old.
Proof.
  destruct f as [[n|]|]; cbn; try done.
  intros H. rewrite H. by apply Z.eqb_eq in H.
Qed.

Lemma py_eq_list (P : list str → bool) old f :
  py_eq (of_optional VList old)
        (field_value VList f (of_optional VList old)) = true →
  set_to (λ l, bool_decide (old = Some l) || P l) f = true
  ∧ patch_activities f old = old.
Proof.
  destruct f as [[l|]|], old as [l0|]; cbn; try done.
  intros ->%bool_decide_eq_true.
  by rewrite !bool_decide_eq_true_2 by done.
Qed.

Lemma py_eq_str (P : str → bool) old f :
  py_eq (of_optional VStr old)
        (field_value VStr f (of_optional VStr old)) = true →
  set_to (λ s, bool_decide (old = Some s) || P s) f = true
  ∧ patch_nullable f old = old.
Proof.
  destruct f as [[l|]|], old as [l0|]; cbn; try done.
  intros ->%bool_decide_eq_true.
  by rewrite !bool_decide_eq_true_2 by done.
Qed.

Lemma unchanged_merged tz data row :
  unchanged (row_values row) (merged_values data row) = true →
  accepted data row = true ∧ patched tz data row (updated_at row) = row.
Proof.
  unfold unchanged, row_values, merged_values.
  cbn [zip zip_with forallb fst snd]. rewrite !py_eq_refl. cbn [andb].
  rewrite !andb_true_iff.
  intros (Hd%(py_eq_date tz) & Hs%(py_eq_int in_int4)
          & Hp%(py_eq_int in_int4) & Ha%(py_eq_list json_ok)
          & Hn%(py_eq_str sendable) & _).
  destruct Hd as [Hd1 Hd2], Hs as (Hs1 & Hs2 & Hs3),
    Hp as (Hp1 & Hp2 & Hp3), Ha as [Ha1 Ha2], Hn as [Hn1 Hn2].
  split.
  - unfold accepted. by rewrite Hd1, Hs1, Hs2, Hp1, Hp2, Ha1, Hn1.
  - unfold patched. rewrite Hd2, Hs3, Hp3, Ha2, Hn2. by destruct row.
Qed.
End Unchanged.

Section Update.
Import DiaryEntry.
Context (tz : SessionZone) (entry_uuid : str)
  (entry_data : DiaryEntryUpdate.t) (device_id : str) (now : Z)
  (db : Store).

Lemma update_diary_entry_found user i row :
  query_user db device_id = inr (Some user) →
  query_entry db (User.user_id user) entry_uuid = inr (Some (i, row)) →
  update_diary_entry tz entry_uuid entry_data device_id now db
  = match flush_update tz db i row
            (assign_all (load row)
               (DiaryEntryUpdate.dict_exclude_unset entry_data)) now with
    | inr (r, db') =>
        (ok "Diary entry updated successfully"
            [("entry_id", VInt (entry_id r));
             ("entry_uuid", VStr (DiaryEntry.entry_uuid r))], db')
    | inl e => (http 500 (TextWithError "Update failed: " e), db)
    end.
Proof. intros Hu He. unfold update_diary_entry. by rewrite Hu, He. Qed.

(** The three ways an update of an entry the handler finds can go. *)
Lemma update_found_cases user i row :
  query_user db device_id = inr (Some user) →
  query_entry db (User.user_id user) entry_uuid = inr (Some (i, row)) →
  (∃ t db',
     (t = updated_at row ∧ db' = db ∧ patched tz entry_data row t = row
      ∨ t = now
        ∧ db' = store_with_update db i (patched tz entry_data row t))
     ∧ accepted entry_data row = true
     ∧ update_diary_entry tz entry_uuid entry_data device_id now db
       = (ok "Diary entry updated successfully"
             [("entry_id", VInt (entry_id row));
              ("entry_uuid", VStr (DiaryEntry.entry_uuid row))], db'))
  ∨ (∃ es,
       accepted entry_data row = false
       ∧ update_values tz columns (row_values row)
                       (merged_values entry_data row) = inl es
       ∧ update_diary_entry tz entry_uuid entry_data device_id now db
         = (http 500 (TextWithError "Update failed: " es), db)).
Proof.
  intros Hu He. rewrite (update_diary_entry_found _ _ _ Hu He).
  rewrite flush_update_merged.
  destruct (unchanged _ _) eqn:U.
  - apply (unchanged_merged tz) in U as [A P].
    left. exists (updated_at row), db. split_and!; [by left|done..].
  - destruct (accepted entry_data row) eqn:A.
    + rewrite (update_values_accepted _ _ _ A).
      left.
      exists now, (store_with_update db i (patched tz entry_data row now)).
      split_and!; [by right|done..].
    + destruct (update_values_refused tz _ _ A) as [es Hes].
      rewrite Hes. right. by exists es.
Qed.

(** An update leaves the store as it was or replaces the row it found
    by the merge of the request into it. *)
Lemma update_diary_entry_store :
  (update_diary_entry tz entry_uuid entry_data device_id now db).2 = db
  ∨ ∃ user i row,
      query_user db device_id = inr (Some user)
      ∧ query_entry db (User.user_id user) entry_uuid = inr (Some (i, row))
      ∧ accepted entry_data row = true
      ∧ (update_diary_entry tz entry_uuid entry_data device_id now db).2
        = store_with_update db i (patched tz entry_data row now).
Proof.
  destruct (query_user db device_id) as [es|[user|]] eqn:Hu;
    [left; unfold update_diary_entry; by rewrite Hu| |
     left; unfold update_diary_entry; by rewrite Hu].
  destruct (query_entry db (User.user_id user) entry_uuid)
    as [es|[[i row]|]] eqn:He;
    [left; unfold update_diary_entry; by rewrite Hu, He| |
     left; unfold update_diary_entry; by rewrite Hu, He].
  destruct (update_found_cases user i row Hu He)
    as [(t & db' & [(-> & -> & _)|[-> ->]] & A & ->)|(es & _ & _ & ->)];
    [by left| |by left].
  right. by exists user, i, row.
Qed.
End Update.


(** ** ORDER BY *)

Section OrderBy.
Implicit Types (e : DiaryEntry.t) (l : list DiaryEntry.t).
Context (tie : TieBreak).

Lemma insert_desc_perm e l : insert_desc tie e l ≡ₚ e :: l.
Proof.
  induction l as [|x r IH]; cbn [insert_desc]; [done|].
  repeat case_match; try done. by rewrite IH, Permutation_swap.
Qed.

Lemma order_by_entry_date_desc_perm l :
  order_by_entry_date_desc tie l ≡ₚ l.
Proof.
  induction l as [|x r IH]; cbn; [done|].
  by rewrite insert_desc_perm, IH.
Qed.

Lemma insert_desc_sorted e l :
  StronglySorted not_earlier l →
  StronglySorted not_earlier (insert_desc tie e l).
Proof.
  induction l as [|x r IH]; cbn [insert_desc]; intros Hs.
  - repeat constructor.
  - apply StronglySorted_cons in Hs as [Hx Hr].
    assert ((DiaryEntry.entry_date x ≤ DiaryEntry.entry_date e)%Z →
            StronglySorted not_earlier (e :: x :: r)) as Hfront.
    { intros Hle. apply StronglySorted_cons.
      split; [|by apply StronglySorted_cons].
      constructor; [done|].
      eapply Forall_impl; [exact Hx|]. unfold not_earlier. intros; lia. }
    destruct (Z.ltb_spec (DiaryEntry.entry_date x) (DiaryEntry.entry_date e));
      [apply Hfront; lia|].
    destruct (Z.eqb_spec (DiaryEntry.entry_date x) (DiaryEntry.entry_date e));
      cbn [andb]; [destruct (tie e x); [apply Hfront; lia|]|].
    all: apply StronglySorted_cons; split; [|by apply IH].
    all: rewrite insert_desc_perm; constructor; [|done].
    all: unfold not_earlier; lia.
Qed.

Lemma order_by_entry_date_desc_sorted l :
  StronglySorted not_earlier (order_by_entry_date_desc tie l).
Proof.
  induction l as [|x r IH]; cbn; [constructor|]. by apply insert_desc_sorted.
Qed.
End OrderBy.

Lemma filter_none {A} (P : A → Prop) `{!∀ x, Decision (P x)} (l : list A) :
  Forall (λ x, ¬ P x) l → filter P l = [].
Proof.
  induction 1 as [|x l Hx _ IH]; [done|].
  by rewrite filter_cons, decide_False.
Qed.

(** Two listings of the same rows show the same dates in the same
    order. *)
Lemma sorted_dates_unique (l l' : list DiaryEntry.t) :
  StronglySorted not_earlier l → StronglySorted not_earlier l' →
  l ≡ₚ l' →
  DiaryEntry.entry_date <$> l = DiaryEntry.entry_date <$> l'.
Proof.
  intros Hl Hl' Hp.
  assert (AntiSymm (=) (flip Z.le)) by (intros x y ??; unfold flip in *; lia).
  apply (StronglySorted_unique (flip Z.le)).
  - by apply (StronglySorted_fmap _ not_earlier (flip Z.le)).
  - by apply (StronglySorted_fmap _ not_earlier (flip Z.le)).
  - by rewrite Hp.
Qed.

(** ** register_device *)

Section Register.
Context (device_id : str) (now : Z) (db : Store).

Lemma register_device_known u :
  query_user db device_id = inr (Some u) →
  register_device {| UserCreate.device_id := device_id |} now db
  = (ok "Device already exists"
        [("user_id", VInt (User.user_id u)); ("device_id", VStr device_id)],
     db).
Proof.
  intros H. unfold register_device; cbn [UserCreate.device_id]. rewrite H.
  by apply query_user_Some in H as (_ & -> & _).
Qed.

Lemma register_device_new kept :
  query_user db device_id = inr None →
  fit User.device_id_max device_id = Some kept →
  (∀ u, u ∈ users db → User.device_id u ≠ kept) →
  register_device {| UserCreate.device_id := device_id |} now db
  = (ok "Device registered successfully"
        [("user_id", VInt (users_seq db)); ("device_id", VStr kept)],
     store_with_user db (new_user kept now db)).
Proof.
  intros H Hfit Hnew.
  unfold register_device; cbn [UserCreate.device_id]. rewrite H.
  apply query_user_None_inv in H as [Hs%Is_true_true _].
  unfold insert_user. rewrite Hs, Hfit.
  rewrite bool_decide_eq_false_2; [done|].
  rewrite Exists_exists. intros (u & Hin & Hd). by apply (Hnew u).
Qed.


Lemma query_user_after_insert :
  query_user db device_id = inr None →
  query_user (store_with_user db (new_user device_id now db)) device_id
  = inr (Some (new_user device_id now db)).
Proof.
  intros H. unfold query_user in *. cbn [users store_with_user].
  destruct (sendable device_id); [|done]. f_equal.
  injection H as H. apply fmap_None in H.
  rewrite list_find_app_r by done.
  cbn. by rewrite decide_True.
Qed.
End Register.

(** A registration leaves the store as it was or appends one user row
    that holds a device id no other row has. *)
Lemma register_device_store user_data now db :
  (register_device user_data now db).2 = db
  ∨ ∃ kept,
      query_user db (UserCreate.device_id user_data) = inr None
      ∧ fit User.device_id_max (UserCreate.device_id user_data) = Some kept
      ∧ (∀ u, u ∈ users db → User.device_id u ≠ kept)
      ∧ (register_device user_data now db).2
        = store_with_user db (new_user kept now db).
Proof.
  unfold register_device.
  destruct (query_user db _) as [es|[u|]] eqn:Hq; [by left..|].
  unfold insert_user. destruct (sendable _); [|by left].
  destruct (fit _ _) as [kept|] eqn:Hfit; [|by left].
  case_bool_decide as Hex; [by left|]. right. exists kept.
  split_and!; try done.
  intros u Hin Hd. apply Hex, Exists_exists. eauto.
Qed.

(** ** create_diary_entry *)

Local Abbreviation new_instance entry_data user :=
  (<["user_id" := VInt (User.user_id user)]>
   (<["entry_uuid" := VStr (DiaryEntryCreate.entry_uuid entry_data)]>
   (<["entry_date" := VDateTime (DiaryEntryCreate.entry_date entry_data)]>
   (<["mood_score" := VInt (DiaryEntryCreate.mood_score entry_data)]>
   (<["mood_percentage" :=
        VInt (DiaryEntryCreate.mood_percentage entry_data)]>
   (<["activities" :=
        of_optional VList (DiaryEntryCreate.activities entry_data)]>
   (<["notes" := of_optional VStr (DiaryEntryCreate.notes entry_data)]>
    (∅ : gmap string Value)))))))).

Local Abbreviation insert_defaults now db :=
  (<["entry_id" := VInt (diary_entries_seq db)]>
   (<["created_at" := VDateTime (Aware now 0)]>
   (<["updated_at" := VDateTime (Aware now 0)]>
    (∅ : gmap string Value)))).

Section Create.
Import DiaryEntry.
Context (tz : SessionZone) (entry_data : DiaryEntryCreate.t) (now : Z)
  (db : Store).

Lemma insert_values user :
  store_values tz columns
    (column_values (new_instance entry_data user ∪ insert_defaults now db))
  = collect
      [inr (VInt (diary_entries_seq db)); inr (VInt (User.user_id user));
       store_value tz "entry_uuid"
         (VStr (DiaryEntryCreate.entry_uuid entry_data));
       inr (VDateTime (Naive
              (stored_date tz (DiaryEntryCreate.entry_date entry_data))));
       store_value tz "mood_score"
         (VInt (DiaryEntryCreate.mood_score entry_data));
       store_value tz "mood_percentage"
         (VInt (DiaryEntryCreate.mood_percentage entry_data));
       store_value tz "activities"
         (of_optional VList (DiaryEntryCreate.activities entry_data));
       store_value tz "notes"
         (of_optional VStr (DiaryEntryCreate.notes entry_data));
       inr (VDateTime (Aware (now - 0) 0));
       inr (VDateTime (Aware (now - 0) 0))].
Proof. reflexivity. Qed.

Lemma store_activities (a : option (list str)) :
  store_value tz "activities" (of_optional VList a)
  = if from_option json_ok true a
    then inr (of_optional VList (a ≫= mapM json_kept))
    else inl (JsonTextRefused "activities").
Proof.
  destruct a as [l|]; [|done]. cbn.
  unfold store_value. cbn. pose proof (json_ok_mapM l) as J.
  destruct (json_ok l); [by destruct J as [? ->]|by rewrite J].
Qed.

Lemma store_notes (n : option str) :
  store_value tz "notes" (of_optional VStr n)
  = if from_option sendable true n
    then inr (of_optional VStr n)
    else inl UnsendableString.
Proof. by destruct n as [s|]. Qed.

Lemma store_entry_uuid s :
  store_value tz "entry_uuid" (VStr s)
  = if sendable s
    then match fit entry_uuid_max s with
         | Some s' => inr (VStr s')
         | None => inl (StringDataRightTruncation "entry_uuid")
         end
    else inl UnsendableString.
Proof. done. Qed.

Lemma store_int c n :
  column_type c = Int4 →
  store_value tz c (VInt n)
  = if in_int4 n then inr (VInt n) else inl (NumericValueOutOfRange c).
Proof. intros Hc. unfold store_value. by rewrite Hc. Qed.

Lemma insert_entry_ok user :
  user ∈ users db →
  create_ok entry_data →
  insert_entry tz db (new_instance entry_data user) now
  = inr (created_row tz entry_data user now db,
         store_with_entry db (created_row tz entry_data user now db)).
Proof.
  intros Hin (Hs & [kept Hk] & Hms & Hmp & Ha & Hn).
  unfold insert_entry, to_row. cbv zeta. rewrite insert_values.
  rewrite store_entry_uuid, !store_int, store_activities, store_notes
    by done.
  apply Is_true_true in Hs, Hms, Hmp, Ha, Hn.
  rewrite Hs, Hk, Hms, Hmp, Ha, Hn, Z.sub_0_r.
  cbn [collect flush_bind].
  assert (of_values
            [VInt (diary_entries_seq db); VInt (User.user_id user);
             VStr kept;
             VDateTime (Naive
               (stored_date tz (DiaryEntryCreate.entry_date entry_data)));
             VInt (DiaryEntryCreate.mood_score entry_data);
             VInt (DiaryEntryCreate.mood_percentage entry_data);
             of_optional VList
               (DiaryEntryCreate.activities entry_data ≫= mapM json_kept);
             of_optional VStr (DiaryEntryCreate.notes entry_data);
             VDateTime (Aware now 0); VDateTime (Aware now 0)]
          = Some (created_row tz entry_data user now db)) as ->.
  { unfold created_row. rewrite Hk. cbn [default].
    destruct (DiaryEntryCreate.activities entry_data ≫= mapM json_kept),
      (DiaryEntryCreate.notes entry_data); reflexivity. }
  cbn [flush_bind]. rewrite references_user_ok; [done|].
  apply Exists_exists. by exists user.
Qed.

Lemma insert_entry_refused user :
  ¬ create_ok entry_data →
  ∃ es, insert_entry tz db (new_instance entry_data user) now = inl es.
Proof.
  intros Hno. unfold insert_entry, to_row. cbv zeta. rewrite insert_values.
  rewrite store_entry_uuid, !store_int, store_activities, store_notes
    by done.
  unfold create_ok in Hno.
  destruct (sendable _) eqn:Hs, (fit _ _) eqn:Hk, (in_int4 _) eqn:Hms,
    (in_int4 (DiaryEntryCreate.mood_percentage _)) eqn:Hmp,
    (from_option json_ok _ _) eqn:Ha, (from_option sendable _ _) eqn:Hn;
    cbn [collect flush_bind]; eauto.
  destruct Hno. split_and!; by eauto.
Qed.

(** A create for a registered device and a fresh uuid inserts the row or
    is refused by the store. *)
Lemma create_diary_entry_new user :
  query_user db (DiaryEntryCreate.device_id entry_data) = inr (Some user) →
  query_entry db (User.user_id user)
              (DiaryEntryCreate.entry_uuid entry_data) = inr None →
  (create_ok entry_data
   ∧ create_diary_entry tz entry_data now db
     = (ok "Diary entry uploaded successfully"
           [("entry_id", VInt (diary_entries_seq db));
            ("entry_uuid",
             VStr (entry_uuid (created_row tz entry_data user now db)))],
        store_with_entry db (created_row tz entry_data user now db)))
  ∨ (¬ create_ok entry_data
     ∧ ∃ es, create_diary_entry tz entry_data now db
             = (http 500 (TextWithError "Upload failed: " es), db)).
Proof.
  intros Hu He. unfold create_diary_entry. rewrite Hu, He. cbv zeta.
  apply query_user_Some in Hu as (Hin & _ & _).
  destruct (decide (create_ok entry_data)) as [Hok|Hno].
  - left. split; [done|]. by rewrite insert_entry_ok.
  - right. split; [done|].
    destruct (insert_entry_refused user Hno) as [es ->]. by exists es.
Qed.

(** A create leaves the store as it was or appends the row it made of
    the request. *)
Lemma create_diary_entry_store :
  (create_diary_entry tz entry_data now db).2 = db
  ∨ ∃ user,
      query_user db (DiaryEntryCreate.device_id entry_data)
      = inr (Some user)
      ∧ query_entry db (User.user_id user)
                    (DiaryEntryCreate.entry_uuid entry_data) = inr None
      ∧ create_ok entry_data
      ∧ (create_diary_entry tz entry_data now db).2
        = store_with_entry db (created_row tz entry_data user now db).
Proof.
  destruct (query_user db (DiaryEntryCreate.device_id entry_data))
    as [es|[user|]] eqn:Hu;
    [left; unfold create_diary_entry; by rewrite Hu| |
     left; unfold create_diary_entry; by rewrite Hu].
  destruct (query_entry db (User.user_id user)
                        (DiaryEntryCreate.entry_uuid entry_data))
    as [es|[p|]] eqn:He;
    [left; unfold create_diary_entry; by rewrite Hu, He..|].
  destruct (create_diary_entry_new user Hu He)
    as [[Hok ->]|(_ & es & ->)]; [|by left].
  right. by exists user.
Qed.
End Create.


(** ** Theorems *)

Lemma demo_store_ok : store_ok demo_store.
Proof. by apply (bool_decide_unpack _). Qed.

Lemma store_with_update_perm db i row r :
  diary_entries db !! i = Some row →
  diary_entries (store_with_update db i r)
  ≡ₚ r :: delete i (diary_entries db).
Proof. intros _. cbn. by rewrite Permutation_app_comm. Qed.

(** C7: an update changes neither the owner ([user_id]) nor [entry_uuid],
    [entry_id] or [created_at] of any diary entry: the entries of the
    store carry the same identities after it as before, each as often, and
    the user rows are untouched.  The dictionary of an update request names
    only [entry_date], [mood_score], [mood_percentage], [activities] and
    [notes]. *)
Theorem update_keeps_ownership tz entry_uuid entry_data device_id now db :
  identity <$> diary_entries
     (update_diary_entry tz entry_uuid entry_data device_id now db).2
  ≡ₚ identity <$> diary_entries db
  ∧ users (update_diary_entry tz entry_uuid entry_data device_id now db).2
    = users db
  ∧ forallb (λ field, bool_decide (field ∈ updatable_fields))
            (DiaryEntryUpdate.dict_exclude_unset entry_data).*1 = true.
Proof.
  split_and!.
  - destruct (update_diary_entry_store tz entry_uuid entry_data device_id
                now db)
      as [->|(user & i & row & _ & He & _ & ->)]; [done|].
    apply query_entry_Some in He as (Hi & _).
    rewrite (store_with_update_perm _ _ row) by done.
    rewrite (delete_Permutation (diary_entries db) i row) at 2 by done.
    done.
  - destruct (update_diary_entry_store tz entry_uuid entry_data device_id
                now db)
      as [->|(user & i & row & _ & _ & _ & ->)]; done.
  - by destruct entry_data as [[?|] [?|] [?|] [?|] [?|]].
Qed.

(** C1: for an existing diary entry, whether the update goes through or
    not the store holds afterwards one row in the place of the entry and
    every other row as before; that row is the same entry, and every field
    the request does not set has in it the value stored before.  An update
    that sets only [notes] leaves the entry with the old [entry_date],
    [mood_score], [mood_percentage] and [activities], and with the new
    [notes] once it has returned its envelope, which it does whenever the
    new notes are [null] or a text the driver can send. *)
Theorem update_keeps_absent_fields tz entry_uuid entry_data device_id now db
    user i row :
  query_user db device_id = inr (Some user) →
  query_entry db (User.user_id user) entry_uuid = inr (Some (i, row)) →
  ∃ row',
    diary_entries
      (update_diary_entry tz entry_uuid entry_data device_id now db).2
    ≡ₚ row' :: delete i (diary_entries db)
    ∧ identity row' = identity row
    ∧ (DiaryEntryUpdate.entry_date entry_data = None →
       DiaryEntry.entry_date row' = DiaryEntry.entry_date row)
    ∧ (DiaryEntryUpdate.mood_score entry_data = None →
       DiaryEntry.mood_score row' = DiaryEntry.mood_score row)
    ∧ (DiaryEntryUpdate.mood_percentage entry_data = None →
       DiaryEntry.mood_percentage row' = DiaryEntry.mood_percentage row)
    ∧ (DiaryEntryUpdate.activities entry_data = None →
       DiaryEntry.activities row' = DiaryEntry.activities row)
    ∧ (DiaryEntryUpdate.notes entry_data = None →
       DiaryEntry.notes row' = DiaryEntry.notes row)
    ∧ (∀ v, entry_data = only_notes v →
       DiaryEntry.entry_date row' = DiaryEntry.entry_date row
       ∧ DiaryEntry.mood_score row' = DiaryEntry.mood_score row
       ∧ DiaryEntry.mood_percentage row' = DiaryEntry.mood_percentage row
       ∧ DiaryEntry.activities row' = DiaryEntry.activities row
       ∧ (has_envelope
            (update_diary_entry tz entry_uuid entry_data device_id now db).1
          → DiaryEntry.notes row' = v)
       ∧ (from_option sendable true v →
          (update_diary_entry tz entry_uuid entry_data device_id now db).1
          = ok "Diary entry updated successfully"
               [("entry_id", VInt (DiaryEntry.entry_id row));
                ("entry_uuid", VStr entry_uuid)])).
Proof.
  intros Hu He.
  pose proof (query_entry_Some _ _ _ _ _ He) as (Hi & Hown & Huuid).
  assert (∀ v, from_option sendable true v →
               accepted (only_notes v) row = true) as Hnotes.
  { intros [s|] Hs; [|done]. unfold accepted. cbn.
    apply Is_true_true in Hs. cbn in Hs. by rewrite Hs, orb_true_r. }
  destruct (update_found_cases tz entry_uuid entry_data device_id now db
              user i row Hu He)
    as [(t & db' & Hcase & A & ->)|(es & A & _ & ->)]; cbn [fst snd].
  - exists (patched tz entry_data row t). split_and!.
    + destruct Hcase as [(_ & -> & ->)|[_ ->]].
      * by apply delete_Permutation.
      * by apply (store_with_update_perm _ _ row).
    + done.
    + cbn. by intros ->.
    + cbn. by intros ->.
    + cbn. by intros ->.
    + cbn. by intros ->.
    + cbn. by intros ->.
    + intros v ->. by rewrite Huuid.
  - exists row. split_and!; try done; [by apply delete_Permutation|].
    intros v ->. split_and!; try done.
    intros Hv. by rewrite Hnotes in A.
Qed.

(** The update of [notes] alone on the second entry of the small store. *)
Lemma update_keeps_absent_fields_witness :
  ∃ row',
    diary_entries
      (update_diary_entry utc (text "uuid-2")
         (only_notes (Some (text "calm"))) (text "dev-a") 50 demo_store).2
    ≡ₚ row' :: delete 1%nat (diary_entries demo_store)
    ∧ DiaryEntry.notes row' = Some (text "calm")
    ∧ DiaryEntry.mood_score row' = 4
    ∧ DiaryEntry.activities row' = Some [text "run"; text "meditate"].
Proof.
  destruct (update_keeps_absent_fields utc (text "uuid-2")
              (only_notes (Some (text "calm"))) (text "dev-a") 50
              demo_store demo_user 1%nat demo_entry_2)
    as (row' & Hp & _ & _ & Hs & _ & Ha & _ & Hn);
    [vm_compute; reflexivity | vm_compute; reflexivity |].
  exists row'. split; [exact Hp|].
  destruct (Hn (Some (text "calm")) eq_refl) as (_ & _ & _ & _ & Hv & Hok).
  rewrite Hv by (by rewrite (Hok I)).
  rewrite (Hs eq_refl), (Ha eq_refl). repeat split.
Defined.






(** C2 as stated fails: a device id longer than the 255 characters of its
    column is refused by the store, a device id that holds a NUL character
    cannot even be looked up, and either registration ends in status 500
    with no user row. *)
Lemma register_long_device_id_fails :
  register_device {| UserCreate.device_id := long_device_id |} 0 empty_store
  = (http 500 (TextWithError "Registration failed: "
                             [StringDataRightTruncation "device_id"]),
     empty_store)
  ∧ register_device {| UserCreate.device_id := nul_device_id |} 0 empty_store
    = (http 500 (TextWithError "Registration failed: " [UnsendableString]),
       empty_store).
Proof. split; vm_compute; reflexivity. Qed.

(** C2, amended: for a device id of at most 255 characters that the driver
    can send, two registrations in sequence both return success with the
    same [user_id]; the second reports "Device already exists" and leaves
    the store as the first left it, and the first adds at most one user
    row. *)
Theorem register_twice device_id now now' db :
  sendable device_id →
  (length device_id ≤ User.device_id_max)%nat →
  ∃ msg user_id db1,
    register_device {| UserCreate.device_id := device_id |} now db
    = (ok msg [("user_id", VInt user_id); ("device_id", VStr device_id)],
       db1)
    ∧ register_device {| UserCreate.device_id := device_id |} now' db1
      = (ok "Device already exists"
            [("user_id", VInt user_id); ("device_id", VStr device_id)],
         db1)
    ∧ (users db1 = users db ∨ ∃ u, users db1 = (users db ++ [u])%list).
Proof.
  intros Hs Hlen.
  destruct (query_user db device_id) as [es|[u|]] eqn:Hq.
  - unfold query_user in Hq. apply Is_true_true in Hs. by rewrite Hs in Hq.
  - exists "Device already exists", (User.user_id u), db.
    rewrite !(register_device_known _ _ _ u) by done. eauto.
  - eexists _, _, _.
    rewrite (register_device_new _ _ _ device_id Hq (fit_short _ _ Hlen))
      by by apply query_user_None_inv in Hq as [_ ?].
    split; [reflexivity|]. split; [|by eauto].
    by rewrite (register_device_known _ _ _ (new_user device_id now db))
      by by apply query_user_after_insert.
Qed.

(** A new device registered twice on the small store. *)
Lemma register_twice_witness :
  ∃ msg user_id db1,
    register_device {| UserCreate.device_id := text "dev-b" |} 30 demo_store
    = (ok msg [("user_id", VInt user_id);
               ("device_id", VStr (text "dev-b"))], db1)
    ∧ register_device {| UserCreate.device_id := text "dev-b" |} 31 db1
      = (ok "Device already exists"
            [("user_id", VInt user_id);
             ("device_id", VStr (text "dev-b"))], db1)
    ∧ (users db1 = users demo_store
       ∨ ∃ u, users db1 = (users demo_store ++ [u])%list).
Proof.
  apply (register_twice (text "dev-b") 30 31 demo_store).
  - vm_compute. exact I.
  - vm_compute. lia.
Defined.

(** C9 as stated fails: registering the empty device id (the [str] of no
    characters) on the empty store succeeds and inserts a user row for
    it. *)
Lemma register_empty_device_id_succeeds :
  register_device {| UserCreate.device_id := [] |} 0 empty_store
  = (ok "Device registered successfully"
        [("user_id", VInt 1); ("device_id", VStr [])],
     {| users := [{| User.user_id := 1; User.device_id := [];
                     User.created_at := 0; User.updated_at := 0 |}];
        diary_entries := []; users_seq := 2; diary_entries_seq := 1 |}).
Proof. vm_compute. reflexivity. Qed.

(** C9, amended: the empty string is registered like any other device id:
    the call returns success and afterwards the store holds a user whose
    [device_id] is the empty string. *)
Theorem register_empty_device_id now db :
  ∃ msg user_id db1,
    register_device {| UserCreate.device_id := [] |} now db
    = (ok msg [("user_id", VInt user_id); ("device_id", VStr [])],
       db1)
    ∧ Exists (λ u, User.device_id u = [] ∧ User.user_id u = user_id)
             (users db1).
Proof.
  destruct (query_user db []) as [es|[u|]] eqn:Hq; [done|..].
  - exists "Device already exists", (User.user_id u), db.
    rewrite (register_device_known _ _ _ u) by done. split; [done|].
    apply query_user_Some in Hq as (Hin & Hd & _).
    apply Exists_exists. eauto.
  - eexists _, _, _.
    rewrite (register_device_new _ _ _ [] Hq)
      by (done || by apply query_user_None_inv in Hq as [_ ?]).
    split; [reflexivity|]. cbn [users store_with_user].
    apply Exists_app. right. by constructor.
Qed.

(** C3: when the store already holds a diary entry of the resolved user
    with the request's [entry_uuid], [create_diary_entry] raises status 409
    "Diary entry already exists" and the store, the existing entry
    included, is exactly as before. *)
Theorem create_duplicate_conflict tz entry_data now db user existing :
  store_ok db →
  query_user db (DiaryEntryCreate.device_id entry_data) = inr (Some user) →
  existing ∈ diary_entries db →
  DiaryEntry.user_id existing = User.user_id user →
  DiaryEntry.entry_uuid existing = DiaryEntryCreate.entry_uuid entry_data →
  create_diary_entry tz entry_data now db
  = (http 409 (Text "Diary entry already exists"), db).
Proof.
  intros (_ & _ & Hok) Hu Hin Hown Huuid. unfold create_diary_entry.
  rewrite Hu. rewrite Forall_forall in Hok.
  destruct (Hok existing Hin) as (Hs & _). rewrite Huuid in Hs.
  by destruct (query_entry_present db _ _ existing Hs Hin Hown Huuid)
    as [? ->].
Qed.

(** A second create for "uuid-2" of device "dev-a". *)
Lemma create_duplicate_conflict_witness :
  create_diary_entry utc
    {| DiaryEntryCreate.entry_uuid := text "uuid-2";
       DiaryEntryCreate.entry_date := Naive 5;
       DiaryEntryCreate.mood_score := 1;
       DiaryEntryCreate.mood_percentage := 10;
       DiaryEntryCreate.activities := Some [];
       DiaryEntryCreate.notes := Some (text "again");
       DiaryEntryCreate.device_id := text "dev-a" |} 60 demo_store
  = (http 409 (Text "Diary entry already exists"), demo_store).
Proof.
  apply (create_duplicate_conflict utc _ 60 demo_store demo_user
           demo_entry_2).
  - by apply (bool_decide_unpack _).
  - vm_compute; reflexivity.
  - cbn. apply list_elem_of_further, list_elem_of_here.
  - reflexivity.
  - reflexivity.
Defined.

(** C4 as stated fails: a create whose [device_id] holds a NUL character
    names no registered device, yet the answer is not 404: the lookup
    itself raises and the handler answers 500. *)
Lemma create_unsendable_device_id_fails :
  Forall (λ u, User.device_id u ≠ nul_device_id) (users demo_store)
  ∧ create_diary_entry utc
      {| DiaryEntryCreate.entry_uuid := text "uuid-9";
         DiaryEntryCreate.entry_date := Naive 5;
         DiaryEntryCreate.mood_score := 1;
         DiaryEntryCreate.mood_percentage := 10;
         DiaryEntryCreate.activities := None;
         DiaryEntryCreate.notes := None;
         DiaryEntryCreate.device_id := nul_device_id |} 60 demo_store
    = (http 500 (TextWithError "Upload failed: " [UnsendableString]),
       demo_store).
Proof.
  split; [|vm_compute; reflexivity].
  apply Forall_singleton. discriminate.
Qed.

(** C4, amended: when no user row has the request's [device_id],
    [create_diary_entry] fails whatever the rest of the payload is, with
    status 404 "Device not registered" when the driver can send the device
    id and with status 500 when it cannot, and the store (users and diary
    entries) is exactly as before. *)
Theorem create_unregistered_device tz entry_data now db :
  Forall (λ u, User.device_id u ≠ DiaryEntryCreate.device_id entry_data)
         (users db) →
  create_diary_entry tz entry_data now db
  = (if sendable (DiaryEntryCreate.device_id entry_data)
     then http 404 (Text "Device not registered")
     else http 500 (TextWithError "Upload failed: " [UnsendableString]),
     db).
Proof.
  intros H. unfold create_diary_entry.
  destruct (sendable _) eqn:Hs.
  - rewrite Forall_forall in H. apply Is_true_true in Hs.
    by rewrite (query_user_None db _ Hs H).
  - by rewrite query_user_unsendable by by apply Is_true_false_2.
Qed.

(** A create for a device the small store does not know. *)
Lemma create_unregistered_device_witness :
  create_diary_entry utc
    {| DiaryEntryCreate.entry_uuid := text "uuid-9";
       DiaryEntryCreate.entry_date := Naive 5;
       DiaryEntryCreate.mood_score := 1;
       DiaryEntryCreate.mood_percentage := 10;
       DiaryEntryCreate.activities := None;
       DiaryEntryCreate.notes := None;
       DiaryEntryCreate.device_id := text "dev-z" |} 60 demo_store
  = (http 404 (Text "Device not registered"), demo_store).
Proof.
  rewrite (create_unregistered_device utc _ 60 demo_store);
    [reflexivity|].
  apply Forall_singleton. discriminate.
Defined.

(** C5: for a registered device, [get_diary_entries] returns, as a success,
    exactly the diary entries whose [user_id] is the resolved user's, each
    once, ordered by [entry_date] descending, whatever the executor does
    with entries of one date; when the user owns no entry the result is
    the empty list. *)
Theorem list_owned_entries_by_date_desc tie device_id db user :
  query_user db device_id = inr (Some user) →
  ∃ es,
    get_diary_entries tie device_id db = Returns (Entries es)
    ∧ es ≡ₚ filter (λ e, DiaryEntry.user_id e = User.user_id user)
                   (diary_entries db)
    ∧ StronglySorted not_earlier es
    ∧ (Forall (λ e, DiaryEntry.user_id e ≠ User.user_id user)
              (diary_entries db) → es = []).
Proof.
  intros Hu. unfold get_diary_entries. rewrite Hu.
  eexists. split; [reflexivity|]. split_and!.
  - apply order_by_entry_date_desc_perm.
  - apply order_by_entry_date_desc_sorted.
  - intros Hnone. by rewrite filter_none.
Qed.

(** Entries dated 2024-01-01, 2024-03-01, 2024-02-01 are listed as
    2024-03-01, 2024-02-01, 2024-01-01. *)
Lemma list_owned_entries_by_date_desc_witness :
  ∃ es,
    get_diary_entries scan_order (text "dev-a") demo_store
    = Returns (Entries es)
    ∧ es = [demo_entry_2; demo_entry_3; demo_entry_1].
Proof.
  destruct (list_owned_entries_by_date_desc scan_order (text "dev-a")
              demo_store demo_user)
    as (es & Hes & _); [vm_compute; reflexivity|].
  exists es. split; [exact Hes|].
  vm_compute in Hes. by injection Hes as <-.
Defined.

Lemma tied_store_reachable : reachable utc tied_store.
Proof.
  unfold tied_store. do 2 apply reachable_create.
  apply reachable_register, reachable_empty.
Qed.

Lemma retied_store_reachable : reachable utc retied_store.
Proof.
  unfold retied_store. do 2 apply reachable_update.
  apply tied_store_reachable.
Qed.

(** C6 as stated fails: no fixed order on entries governs the ties of
    every listing.  With an executor that leaves entries of one date as the
    scan produces them, two stores the handlers produce hold the same two
    rows of one date, and list them in opposite orders: in the second the
    notes of the first entry were changed and changed back. *)
Lemma list_ties_follow_no_key :
  diary_entries tied_store = [tie_entry_1; tie_entry_2]
  ∧ diary_entries retied_store = [tie_entry_2; tie_entry_1]
  ∧ ¬ ∃ before : DiaryEntry.t → DiaryEntry.t → Prop,
        (∀ a b, before a b → ¬ before b a)
        ∧ ties_ordered_by utc scan_order before.
Proof.
  split; [vm_compute; reflexivity|]. split; [vm_compute; reflexivity|].
  intros (before & Hasym & Hties).
  assert (before tie_entry_1 tie_entry_2) as H12.
  { apply (Hties tied_store (text "dev-a") [tie_entry_1; tie_entry_2]
             tied_store_reachable) with (i := 0%nat) (j := 1%nat);
      [vm_compute; reflexivity|lia|reflexivity..]. }
  assert (before tie_entry_2 tie_entry_1) as H21.
  { apply (Hties retied_store (text "dev-a") [tie_entry_2; tie_entry_1]
             retied_store_reachable) with (i := 0%nat) (j := 1%nat);
      [vm_compute; reflexivity|lia|reflexivity..]. }
  by apply (Hasym _ _ H12).
Qed.

(** C6, amended: the listing is ordered by [entry_date] descending and by
    nothing else.  Two stores with the same users and the same diary
    entries, in whatever scan order and under whatever executors, list for
    a registered device the same entries with the same sequence of dates;
    the order among entries of one date is not part of what is
    guaranteed. *)
Theorem list_orders_by_date_only tie tie' device_id db db' user :
  users db = users db' →
  diary_entries db ≡ₚ diary_entries db' →
  query_user db device_id = inr (Some user) →
  ∃ es es',
    get_diary_entries tie device_id db = Returns (Entries es)
    ∧ get_diary_entries tie' device_id db' = Returns (Entries es')
    ∧ es ≡ₚ es'
    ∧ StronglySorted not_earlier es
    ∧ StronglySorted not_earlier es'
    ∧ DiaryEntry.entry_date <$> es = DiaryEntry.entry_date <$> es'.
Proof.
  intros Hus Hp Hu.
  assert (query_user db' device_id = inr (Some user)) as Hu'.
  { unfold query_user in *. by rewrite <- Hus. }
  unfold get_diary_entries. rewrite Hu, Hu'.
  eexists _, _. split; [reflexivity|]. split; [reflexivity|].
  assert (order_by_entry_date_desc tie
            (filter (λ e, DiaryEntry.user_id e = User.user_id user)
                    (diary_entries db))
          ≡ₚ order_by_entry_date_desc tie'
               (filter (λ e, DiaryEntry.user_id e = User.user_id user)
                       (diary_entries db'))) as Hperm.
  { by rewrite !order_by_entry_date_desc_perm, Hp. }
  split_and!; [done|apply order_by_entry_date_desc_sorted..|].
  apply sorted_dates_unique; [apply order_by_entry_date_desc_sorted..|done].
Qed.

(** The two stores with the tied entries, under executors that settle ties
    in opposite ways. *)
Lemma list_orders_by_date_only_witness :
  ∃ es es',
    get_diary_entries scan_order (text "dev-a") tied_store
    = Returns (Entries es)
    ∧ get_diary_entries (λ _ _, false) (text "dev-a") retied_store
      = Returns (Entries es')
    ∧ DiaryEntry.entry_date <$> es = DiaryEntry.entry_date <$> es'.
Proof.
  destruct (list_orders_by_date_only scan_order (λ _ _, false)
              (text "dev-a") tied_store retied_store demo_user)
    as (es & es' & H & H' & _ & _ & _ & Hd).
  - vm_compute; reflexivity.
  - change (diary_entries tied_store) with [tie_entry_1; tie_entry_2].
    change (diary_entries retied_store) with [tie_entry_2; tie_entry_1].
    apply Permutation_swap.
  - vm_compute; reflexivity.
  - exists es, es'. split; [exact H|]. split; [exact H'|exact Hd].
Defined.

(** C8 as stated fails: the success result of [get_diary_entries] is the
    list of entries itself, and a failure is a raised [HTTPException];
    neither carries the envelope. *)
Lemma list_returns_no_envelope :
  get_diary_entries scan_order (text "dev-a") demo_store
  = Returns (Entries [demo_entry_2; demo_entry_3; demo_entry_1])
  ∧ has_envelope (get_diary_entries scan_order (text "dev-a") demo_store)
    = false
  ∧ has_envelope (get_diary_entries scan_order (text "dev-z") demo_store)
    = false.
Proof. repeat split; vm_compute; reflexivity. Qed.

(** C8, amended: a successful [register_device], [create_diary_entry] or
    [update_diary_entry] returns the envelope with [success = True], a
    message and a payload; a successful [get_diary_entries] returns the
    list of entries itself; every failure is raised as an [HTTPException]
    with a status code (500; 404, 409 or 500; 404 or 500; 404 or 500) and
    a detail. *)
Theorem handlers_response_shapes tz tie user_data create_data entry_uuid
    update_data device_id now db :
  (success_envelope (register_device user_data now db).1
   ∨ raises_status [500] (register_device user_data now db).1)
  ∧ (success_envelope (create_diary_entry tz create_data now db).1
     ∨ raises_status [404; 409; 500]
         (create_diary_entry tz create_data now db).1)
  ∧ (success_envelope
       (update_diary_entry tz entry_uuid update_data device_id now db).1
     ∨ raises_status [404; 500]
         (update_diary_entry tz entry_uuid update_data device_id now db).1)
  ∧ (bare_entries (get_diary_entries tie device_id db)
     ∨ raises_status [404; 500] (get_diary_entries tie device_id db)).
Proof.
  unfold success_envelope, bare_entries, raises_status, http.
  assert (∀ (code : Z) d (codes : list Z), code ∈ codes →
            ∃ e, Raises {| status_code := code; detail := d |} = Raises e
                 ∧ status_code e ∈ codes) as Hraise.
  { intros code d codes Hin. by eexists. }
  split_and!.
  - unfold register_device.
    destruct (query_user _ _) as [es|[u|]];
      [right; apply Hraise; set_solver|by eauto|].
    destruct (insert_user _ _ _) as [e|[u db']]; cbn [fst]; [|by eauto].
    right; apply Hraise; set_solver.
  - unfold create_diary_entry.
    destruct (query_user _ _) as [es|[u|]];
      [right; apply Hraise; set_solver| |right; apply Hraise; set_solver].
    destruct (query_entry _ _ _) as [es|[p|]];
      [right; apply Hraise; set_solver..|].
    cbv zeta.
    destruct (insert_entry _ _ _ _) as [e|[r db']]; cbn [fst]; [|by eauto].
    right; apply Hraise; set_solver.
  - unfold update_diary_entry.
    destruct (query_user _ _) as [es|[u|]];
      [right; apply Hraise; set_solver| |right; apply Hraise; set_solver].
    destruct (query_entry _ _ _) as [es|[[i row]|]];
      [right; apply Hraise; set_solver| |right; apply Hraise; set_solver].
    cbv zeta.
    destruct (flush_update _ _ _ _ _ _) as [e|[r db']]; cbn [fst];
      [|by eauto].
    right; apply Hraise; set_solver.
  - unfold get_diary_entries.
    destruct (query_user _ _) as [es|[u|]];
      [right; apply Hraise; set_solver|by eauto|
       right; apply Hraise; set_solver].
Qed.


(** ** What the store holds *)

Section Kept.

Lemma json_kept_bounded n s s' :
  (length s ≤ n)%nat → json_kept s = Some s' → sendable s'.
Proof.
  revert s s'. induction n as [|n IH]; intros s s' Hn.
  { destruct s; [|cbn in Hn; lia]. by intros [= <-]. }
  destruct s as [|c r]; [by intros [= <-]|]. cbn [json_kept].
  cbn in Hn.
  destruct (N.eqb_spec c 0) as [|Hc0]; [done|].
  destruct (high_surrogate c) eqn:Hh.
  - destruct r as [|l r']; [done|].
    destruct (low_surrogate l); [|done].
    intros (t & Ht & ->)%fmap_Some.
    apply (IH r') in Ht; [|cbn in Hn; lia].
    unfold sendable in *. cbn [forallb]. apply andb_prop_intro.
    split; [|done].
    unfold high_surrogate in Hh. apply andb_true_iff in Hh as [Hh _].
    apply N.leb_le in Hh. unfold sendable_char.
    destruct (N.eqb_spec (0x10000 + (c - 0xD800) * 0x400 + (l - 0xDC00)) 0);
      [lia|].
    destruct (N.leb_spec (0x10000 + (c - 0xD800) * 0x400 + (l - 0xDC00))
                         0xDFFF); [lia|].
    by rewrite andb_false_r.
  - destruct (low_surrogate c) eqn:Hl; [done|].
    intros (t & Ht & ->)%fmap_Some.
    apply (IH r) in Ht; [|lia].
    unfold sendable in *. cbn [forallb]. apply andb_prop_intro.
    split; [|done].
    unfold sendable_char, high_surrogate, low_surrogate in *.
    destruct (N.eqb_spec c 0); [done|].
    destruct (N.leb_spec 0xD800 c), (N.leb_spec c 0xDFFF),
      (N.leb_spec c 0xDBFF), (N.leb_spec 0xDC00 c); cbn in *;
      try done; lia.
Qed.

Lemma json_kept_out s s' : json_kept s = Some s' → sendable s'.
Proof. by apply (json_kept_bounded (length s)). Qed.

Lemma mapM_json_kept_out l l' :
  mapM json_kept l = Some l' → forallb sendable l'.
Proof.
  revert l'. induction l as [|s l IH]; intros l'; [by intros [= <-]|].
  cbn. destruct (json_kept s) as [s'|] eqn:Hs; [|done]. cbn.
  destruct (mapM json_kept l) as [t|] eqn:Hl; [|done]. cbn.
  intros [= <-]. cbn [forallb]. apply andb_prop_intro. split.
  - by eapply json_kept_out.
  - by apply IH.
Qed.

Lemma set_to_or {A} (P Q : A → bool) (f : option (option A)) :
  (∀ a, P a = true → Q a = true) →
  set_to (λ a, P a || Q a) f = set_to Q f.
Proof.
  intros H. destruct f as [[a|]|]; cbn; try done.
  destruct (P a) eqn:E; [|done]. by rewrite (H a E).
Qed.

(** On a row the store can hold, an UPDATE takes the request exactly when
    the request's own values are acceptable. *)
Lemma accepted_update_ok db data row :
  entry_ok db row → accepted data row = true ↔ update_ok data.
Proof.
  intros (_ & _ & Hs & Hp & Ha & Hn & _).
  unfold accepted, update_ok.
  rewrite (set_to_or _ in_int4); cycle 1.
  { intros n <-%Z.eqb_eq. by apply Is_true_true. }
  rewrite (set_to_or _ in_int4); cycle 1.
  { intros n <-%Z.eqb_eq. by apply Is_true_true. }
  rewrite (set_to_or _ json_ok); cycle 1.
  { intros l E%bool_decide_eq_true. rewrite E in Ha.
    by apply Is_true_true, json_ok_sendable. }
  rewrite (set_to_or _ sendable); cycle 1.
  { intros s E%bool_decide_eq_true. rewrite E in Hn.
    by apply Is_true_true. }
  rewrite !andb_true_iff, !negb_true_iff, !Is_true_true,
    !not_true_iff_false.
  tauto.
Qed.
End Kept.


(** ** Invariants of the stores the handlers produce *)

Section Invariants.
Import DiaryEntry.

Lemma entry_ok_users db db' e :
  (∀ u, u ∈ users db → u ∈ users db') →
  entry_ok db e → entry_ok db' e.
Proof.
  intros Hsub (? & ? & ? & ? & ? & ? & Hfk). split_and!; try done.
  apply Exists_exists in Hfk as (u & Hin & Hid).
  apply Exists_exists. eauto.
Qed.

Lemma entry_ok_patched tz db data row now :
  entry_ok db row → accepted data row = true →
  entry_ok db (patched tz data row now).
Proof.
  intros Hrow A. pose proof A as Hok.
  apply (accepted_update_ok db) in Hok; [|done].
  destruct Hrow as (H1 & H2 & H3 & H4 & H5 & H6 & H7).
  destruct Hok as (_ & Hn1 & Hn2 & Hs & Hp & Ha & Hn).
  unfold entry_ok, patched.
  cbn [entry_uuid mood_score mood_percentage activities notes user_id].
  split_and!; try done.
  - by destruct (DiaryEntryUpdate.mood_score data) as [[?|]|].
  - by destruct (DiaryEntryUpdate.mood_percentage data) as [[?|]|].
  - destruct (DiaryEntryUpdate.activities data) as [[l|]|]; cbn; try done.
    case_bool_decide; [done|].
    destruct (mapM json_kept l) as [l'|] eqn:M; [|done].
    cbn. by eapply mapM_json_kept_out.
  - by destruct (DiaryEntryUpdate.notes data) as [[?|]|].
Qed.

Lemma entry_ok_created tz db entry_data user now :
  user ∈ users db → create_ok entry_data →
  entry_ok db (created_row tz entry_data user now db).
Proof.
  intros Hin (Hs & [kept Hk] & Hms & Hmp & Ha & Hn).
  unfold entry_ok, created_row.
  cbn [entry_uuid mood_score mood_percentage activities notes user_id].
  rewrite Hk. cbn [default]. split_and!; try done.
  - by eapply fit_sendable.
  - by eapply fit_length.
  - destruct (DiaryEntryCreate.activities entry_data) as [l|]; [|done].
    cbn. destruct (mapM json_kept l) as [l'|] eqn:M; [|done].
    cbn. by eapply mapM_json_kept_out.
  - apply Exists_exists. by exists user.
Qed.

Lemma store_ok_empty : store_ok empty_store.
Proof. repeat split; constructor. Qed.

Lemma store_ok_register user_data now db :
  store_ok db → store_ok (register_device user_data now db).2.
Proof.
  intros (Hus & Hnd & Hes).
  destruct (register_device_store user_data now db)
    as [->|(kept & Hq & Hfit & Hnew & ->)]; [done|].
  apply query_user_None_inv in Hq as [Hs _].
  unfold store_ok; cbn [users diary_entries store_with_user].
  split_and!.
  - apply Forall_app. split; [done|]. apply Forall_singleton.
    split; cbn; [by eapply fit_sendable|by eapply fit_length].
  - rewrite fmap_app. apply NoDup_app.
    split_and!; [done| |by apply NoDup_singleton].
    intros d Hd Hd'. cbn in Hd'. apply list_elem_of_singleton in Hd' as ->.
    apply list_elem_of_fmap in Hd as (u & Hid & Hin).
    by apply (Hnew u).
  - eapply Forall_impl; [exact Hes|]. intros e.
    apply entry_ok_users. cbn [users]. intros u Hu.
    apply elem_of_app. by left.
Qed.

Lemma store_ok_create tz entry_data now db :
  store_ok db → store_ok (create_diary_entry tz entry_data now db).2.
Proof.
  intros (Hus & Hnd & Hes).
  destruct (create_diary_entry_store tz entry_data now db)
    as [->|(user & Hu & He & Hok & ->)]; [done|].
  apply query_user_Some in Hu as (Hin & _ & _).
  unfold store_ok; cbn [users diary_entries store_with_entry].
  split_and!; [done..|].
  apply Forall_app. split.
  - eapply Forall_impl; [exact Hes|]. intros e. by apply entry_ok_users.
  - apply Forall_singleton.
    apply (entry_ok_users db); [done|]. by apply entry_ok_created.
Qed.

Lemma store_ok_update tz entry_uuid entry_data device_id now db :
  store_ok db →
  store_ok (update_diary_entry tz entry_uuid entry_data device_id now db).2.
Proof.
  intros (Hus & Hnd & Hes).
  destruct (update_diary_entry_store tz entry_uuid entry_data device_id
              now db)
    as [->|(user & i & row & Hu & He & A & ->)]; [done|].
  apply query_entry_Some in He as (Hi & _ & _).
  unfold store_ok; cbn [users diary_entries store_with_update].
  split_and!; [done..|].
  assert (entry_ok db row) as Hrow.
  { rewrite Forall_forall in Hes. apply Hes.
    by eapply list_elem_of_lookup_2. }
  apply Forall_app. split.
  - apply Forall_delete.
    eapply Forall_impl; [exact Hes|]. intros e. by apply entry_ok_users.
  - apply Forall_singleton.
    apply (entry_ok_users db); [done|]. by apply entry_ok_patched.
Qed.

Lemma keys_ok_register user_data now db :
  keys_ok db → keys_ok (register_device user_data now db).2.
Proof.
  intros (Hu & Hnu & He & Hne).
  destruct (register_device_store user_data now db)
    as [->|(kept & _ & _ & _ & ->)]; [done|].
  unfold keys_ok, store_with_user, new_user;
    cbn [users diary_entries users_seq diary_entries_seq].
  split_and!; try done.
  - apply Forall_app. split.
    + eapply Forall_impl; [exact Hu|]. cbn. intros; lia.
    + apply Forall_singleton. cbn. lia.
  - rewrite fmap_app. apply NoDup_app.
    split_and!; [done| |by apply NoDup_singleton].
    intros k Hk Hk'. cbn in Hk'. apply list_elem_of_singleton in Hk' as ->.
    apply list_elem_of_fmap in Hk as (u & Hid & Hin).
    rewrite Forall_forall in Hu. specialize (Hu u Hin). cbn in Hu. lia.
Qed.

Lemma keys_ok_create tz entry_data now db :
  keys_ok db → keys_ok (create_diary_entry tz entry_data now db).2.
Proof.
  intros (Hu & Hnu & He & Hne).
  destruct (create_diary_entry_store tz entry_data now db)
    as [->|(user & _ & _ & _ & ->)]; [done|].
  unfold keys_ok, store_with_entry, created_row;
    cbn [users diary_entries users_seq diary_entries_seq].
  split_and!; try done.
  - apply Forall_app. split.
    + eapply Forall_impl; [exact He|]. cbn. intros; lia.
    + apply Forall_singleton. cbn. lia.
  - rewrite fmap_app. apply NoDup_app.
    split_and!; [done| |by apply NoDup_singleton].
    intros k Hk Hk'. cbn in Hk'. apply list_elem_of_singleton in Hk' as ->.
    apply list_elem_of_fmap in Hk as (e & Hid & Hin).
    rewrite Forall_forall in He. specialize (He e Hin). cbn in He. lia.
Qed.

Lemma keys_ok_update tz entry_uuid entry_data device_id now db :
  keys_ok db →
  keys_ok (update_diary_entry tz entry_uuid entry_data device_id now db).2.
Proof.
  intros (Hu & Hnu & He & Hne).
  destruct (update_diary_entry_store tz entry_uuid entry_data device_id
              now db)
    as [->|(user & i & row & _ & Hq & _ & ->)]; [done|].
  apply query_entry_Some in Hq as (Hi & _ & _).
  pose proof (delete_Permutation _ _ _ Hi) as Hp.
  unfold keys_ok;
    cbn [users diary_entries users_seq diary_entries_seq store_with_update].
  split_and!; try done.
  - rewrite Hp in He. apply Forall_cons in He as [Hrow Hrest].
    apply Forall_app. split; [done|]. by apply Forall_singleton.
  - rewrite Hp in Hne. rewrite fmap_cons in Hne.
    rewrite fmap_app. cbn. by rewrite <- Permutation_cons_append.
Qed.

(** The small store is what one registration and three creates leave. *)
Lemma demo_store_reachable : reachable utc demo_store.
Proof.
  pose (s0 := (register_device {| UserCreate.device_id := text "dev-a" |} 10
                               empty_store).2).
  pose (s1 := (create_diary_entry utc (demo_create "uuid-1" 1704067200) 20
                                  s0).2).
  pose (s2 := (create_diary_entry utc (demo_create "uuid-2" 1709251200) 20
                                  s1).2).
  change demo_store
    with (create_diary_entry utc (demo_create "uuid-3" 1706745600) 20 s2).2.
  repeat first [apply reachable_create | apply reachable_register].
  apply reachable_empty.
Qed.
End Invariants.

Lemma reachable_store_ok_aux tz db : reachable tz db → store_ok db.
Proof.
  induction 1.
  - apply store_ok_empty.
  - by apply store_ok_register.
  - by apply store_ok_create.
  - by apply store_ok_update.
Qed.

Lemma reachable_keys_ok_aux tz db : reachable tz db → keys_ok db.
Proof.
  induction 1.
  - repeat split; constructor.
  - by apply keys_ok_register.
  - by apply keys_ok_create.
  - by apply keys_ok_update.
Qed.


(** ** Further properties of the handlers *)

(** *** create_diary_entry *)

Lemma create_diary_entry_accepts tz entry_data now db user :
  query_user db (DiaryEntryCreate.device_id entry_data) = inr (Some user) →
  Forall (λ e, ¬ is_entry_of (User.user_id user)
                   (DiaryEntryCreate.entry_uuid entry_data) e)
         (diary_entries db) →
  create_ok entry_data →
  create_diary_entry tz entry_data now db
  = (ok "Diary entry uploaded successfully"
        [("entry_id", VInt (diary_entries_seq db));
         ("entry_uuid",
          VStr (DiaryEntry.entry_uuid
                  (created_row tz entry_data user now db)))],
     store_with_entry db (created_row tz entry_data user now db)).
Proof.
  intros Hu He Hok. pose proof Hok as (Hs & _).
  apply (query_entry_None db _ _ Hs) in He.
  by destruct (create_diary_entry_new tz entry_data now db user Hu He)
    as [[_ ->]|[Hno _]].
Qed.



(** X2: an [entry_uuid] with more than 36 characters of which those
    beyond the 36th are not all spaces passes the handler's checks and is
    refused by the store: status 500 with the truncation error among the
    store's errors, nothing inserted. *)
Theorem create_entry_uuid_too_long tz entry_data now db user :
  query_user db (DiaryEntryCreate.device_id entry_data) = inr (Some user) →
  Forall (λ e, ¬ is_entry_of (User.user_id user)
                   (DiaryEntryCreate.entry_uuid entry_data) e)
         (diary_entries db) →
  sendable (DiaryEntryCreate.entry_uuid entry_data) →
  fit DiaryEntry.entry_uuid_max (DiaryEntryCreate.entry_uuid entry_data)
  = None →
  ∃ es,
    StringDataRightTruncation "entry_uuid" ∈ es
    ∧ create_diary_entry tz entry_data now db
      = (http 500 (TextWithError "Upload failed: " es), db).
Proof.
  intros Hu He Hs Hfit.
  apply (query_entry_None db _ _ Hs) in He.
  unfold create_diary_entry. rewrite Hu, He. cbv zeta.
  unfold insert_entry, DiaryEntry.to_row. cbv zeta.
  rewrite insert_values, store_entry_uuid.
  apply Is_true_true in Hs. rewrite Hs, Hfit.
  edestruct collect_inl as (es & -> & Hin);
    [do 2 apply list_elem_of_further; apply list_elem_of_here|].
  by exists es.
Qed.

(** A uuid of 37 characters. *)
Lemma create_entry_uuid_too_long_witness :
  ∃ es,
    create_diary_entry utc
      (demo_create "0123456789012345678901234567890123456" 5) 60 demo_store
    = (http 500 (TextWithError "Upload failed: " es), demo_store).
Proof.
  destruct (create_entry_uuid_too_long utc
              (demo_create "0123456789012345678901234567890123456" 5) 60
              demo_store demo_user) as (es & _ & H).
  - vm_compute. reflexivity.
  - repeat (apply Forall_cons_2; [intros [? ?]; discriminate|]).
    apply Forall_nil_2.
  - vm_compute. exact I.
  - vm_compute. reflexivity.
  - by exists es.
Defined.

Lemma create_diary_entry_returns tz entry_data now db resp db1 :
  create_diary_entry tz entry_data now db = (Returns resp, db1) →
  ∃ user,
    query_user db (DiaryEntryCreate.device_id entry_data) = inr (Some user)
    ∧ query_entry db (User.user_id user)
                  (DiaryEntryCreate.entry_uuid entry_data) = inr None
    ∧ create_ok entry_data
    ∧ db1 = store_with_entry db (created_row tz entry_data user now db)
    ∧ resp = Envelope
        {| success := true;
           message := "Diary entry uploaded successfully";
           data := Some
             [("entry_id", VInt (diary_entries_seq db));
              ("entry_uuid",
               VStr (DiaryEntry.entry_uuid
                       (created_row tz entry_data user now db)))] |}.
Proof.
  intros H.
  destruct (query_user db (DiaryEntryCreate.device_id entry_data))
    as [es|[user|]] eqn:Hu;
    [unfold create_diary_entry in H; by rewrite Hu in H| |
     unfold create_diary_entry in H; by rewrite Hu in H].
  destruct (query_entry db (User.user_id user)
                        (DiaryEntryCreate.entry_uuid entry_data))
    as [es|[p|]] eqn:He;
    [unfold create_diary_entry in H; by rewrite Hu, He in H..|].
  destruct (create_diary_entry_new tz entry_data now db user Hu He)
    as [[Hok H']|(_ & es & H')]; rewrite H' in H; [|done].
  injection H as <- <-. by exists user.
Qed.

(** X3: a create that succeeded with an [entry_uuid] of at most 36
    characters makes the same request a conflict: sent again, at any time,
    it raises status 409 and leaves the store as the first create left
    it. *)
Theorem create_again_conflicts tz entry_data now now' db resp db1 :
  (length (DiaryEntryCreate.entry_uuid entry_data)
   ≤ DiaryEntry.entry_uuid_max)%nat →
  create_diary_entry tz entry_data now db = (Returns resp, db1) →
  create_diary_entry tz entry_data now' db1
  = (http 409 (Text "Diary entry already exists"), db1).
Proof.
  intros Hlen H.
  apply create_diary_entry_returns in H
    as (user & Hu & _ & (Hs & _) & -> & _).
  unfold create_diary_entry.
  replace (query_user (store_with_entry db _) _)
    with (@inr (list DBError) _ (Some user)) by done.
  destruct (query_entry_present
              (store_with_entry db (created_row tz entry_data user now db))
              (User.user_id user) (DiaryEntryCreate.entry_uuid entry_data)
              (created_row tz entry_data user now db)) as [p ->];
    [done| |done| |done].
  - cbn [diary_entries store_with_entry]. apply elem_of_app. right.
    apply list_elem_of_here.
  - cbn. by rewrite fit_short.
Qed.

(** The create of "uuid-4" on the small store, sent twice. *)
Lemma create_again_conflicts_witness :
  create_diary_entry utc (demo_create "uuid-4" 1711929600) 71
    (create_diary_entry utc (demo_create "uuid-4" 1711929600) 70
                        demo_store).2
  = (http 409 (Text "Diary entry already exists"),
     (create_diary_entry utc (demo_create "uuid-4" 1711929600) 70
                         demo_store).2).
Proof.
  eapply (create_again_conflicts utc (demo_create "uuid-4" 1711929600)
            70 71 demo_store).
  - vm_compute. lia.
  - vm_compute. reflexivity.
Defined.

(** X22: the duplicate check compares the [entry_uuid] as sent, the store
    keeps it cut to 36 characters.  On a store that satisfies its schema,
    a create that succeeded with a longer uuid (36 characters and spaces)
    succeeds again when it is sent again, and leaves two entries of the
    user with one stored [entry_uuid]. *)
Theorem create_padded_uuid_twice tz entry_data now now' db resp db1 :
  store_ok db →
  (DiaryEntry.entry_uuid_max
   < length (DiaryEntryCreate.entry_uuid entry_data))%nat →
  create_diary_entry tz entry_data now db = (Returns resp, db1) →
  ∃ user kept,
    fit DiaryEntry.entry_uuid_max (DiaryEntryCreate.entry_uuid entry_data)
    = Some kept
    ∧ create_diary_entry tz entry_data now' db1
      = (ok "Diary entry uploaded successfully"
            [("entry_id", VInt (diary_entries_seq db + 1));
             ("entry_uuid", VStr kept)],
         store_with_entry db1 (created_row tz entry_data user now' db1))
    ∧ is_entry_of (User.user_id user) kept
                  (created_row tz entry_data user now db)
    ∧ is_entry_of (User.user_id user) kept
                  (created_row tz entry_data user now' db1)
    ∧ created_row tz entry_data user now db ∈ diary_entries db1.
Proof.
  intros Hdb Hlen H.
  apply create_diary_entry_returns in H
    as (user & Hu & _ & Hok & -> & _).
  pose proof Hok as (Hs & [kept Hk] & _).
  exists user, kept. split; [done|].
  assert (DiaryEntry.entry_uuid (created_row tz entry_data user now db)
          = kept) as Hrow by (cbn; by rewrite Hk).
  split_and!.
  - rewrite (create_diary_entry_accepts tz entry_data now'
               (store_with_entry db (created_row tz entry_data user now db))
               user); [|done| |done].
    + cbn [created_row DiaryEntry.entry_uuid store_with_entry
           diary_entries_seq]. by rewrite Hk.
    + cbn [diary_entries store_with_entry]. apply Forall_app. split.
      * destruct Hdb as (_ & _ & Hes).
        eapply Forall_impl; [exact Hes|].
        intros e (_ & He & _) [_ Huuid]. rewrite Huuid in He. lia.
      * apply Forall_singleton. intros [_ Huuid].
        rewrite Hrow in Huuid. apply fit_length in Hk.
        rewrite Huuid in Hk. lia.
  - by split.
  - split; [done|]. cbn. by rewrite Hk.
  - cbn [diary_entries store_with_entry]. apply elem_of_app. right.
    apply list_elem_of_here.
Qed.

(** A uuid of 36 characters and a space, created twice. *)
Lemma create_padded_uuid_twice_witness :
  let entry_data :=
    demo_create "012345678901234567890123456789012345 " 1711929600 in
  (create_diary_entry utc entry_data 71
     (create_diary_entry utc entry_data 70 demo_store).2).1
  = ok "Diary entry uploaded successfully"
       [("entry_id", VInt 5);
        ("entry_uuid", VStr (text "012345678901234567890123456789012345"))].
Proof.
  intros entry_data.
  destruct (create_diary_entry utc entry_data 70 demo_store)
    as [out db1] eqn:E.
  assert (∃ resp, out = Returns resp) as [resp ->].
  { vm_compute in E. injection E as <- _. by eexists. }
  cbn [snd].
  destruct (create_padded_uuid_twice utc entry_data 70 71 demo_store resp
              db1) as (user & kept & Hk & H & _).
  - by apply (bool_decide_unpack _).
  - vm_compute. lia.
  - exact E.
  - rewrite H. cbn [fst]. vm_compute in Hk.
    injection Hk as <-. vm_compute in E. by injection E as _ <-.
Defined.


Lemma get_diary_entries_same_users tie device_id db db' :
  users db' = users db →
  get_diary_entries tie device_id db'
  = match query_user db device_id with
    | inl e =>
        http 500 (TextWithError "Failed to retrieve diary entries: " e)
    | inr None => http 404 (Text "Device not registered")
    | inr (Some user) =>
        Returns (Entries
          (order_by_entry_date_desc tie
             (filter (λ e, DiaryEntry.user_id e = User.user_id user)
                     (diary_entries db'))))
    end.
Proof.
  intros Hus. unfold get_diary_entries, query_user. by rewrite Hus.
Qed.

(** X4: after a create that succeeded, the listing of the same device is
    the earlier listing with the new row added: it holds the row the store
    made of the request and every entry listed before, and nothing
    else. *)
Theorem create_then_list tz tie entry_data now db resp db1 :
  create_diary_entry tz entry_data now db = (Returns resp, db1) →
  ∃ user old es,
    query_user db (DiaryEntryCreate.device_id entry_data)
    = inr (Some user)
    ∧ get_diary_entries tie (DiaryEntryCreate.device_id entry_data) db
      = Returns (Entries old)
    ∧ get_diary_entries tie (DiaryEntryCreate.device_id entry_data) db1
      = Returns (Entries es)
    ∧ es ≡ₚ created_row tz entry_data user now db :: old
    ∧ DiaryEntry.user_id (created_row tz entry_data user now db)
      = User.user_id user
    ∧ DiaryEntry.notes (created_row tz entry_data user now db)
      = DiaryEntryCreate.notes entry_data
    ∧ DiaryEntry.mood_score (created_row tz entry_data user now db)
      = DiaryEntryCreate.mood_score entry_data.
Proof.
  intros H.
  apply create_diary_entry_returns in H as (user & Hu & _ & _ & -> & _).
  rewrite (get_diary_entries_same_users tie _ db (store_with_entry db _))
    by done.
  unfold get_diary_entries. rewrite Hu.
  eexists user, _, _. split_and!; try reflexivity.
  cbn [diary_entries store_with_entry].
  rewrite filter_app, filter_cons, decide_True, filter_nil by done.
  rewrite !order_by_entry_date_desc_perm.
  by rewrite Permutation_app_comm.
Qed.

(** The create of "uuid-4" on the small store, then the listing. *)
Lemma create_then_list_witness :
  ∃ es,
    get_diary_entries scan_order (text "dev-a")
      (create_diary_entry utc (demo_create "uuid-4" 1711929600) 70
                          demo_store).2
    = Returns (Entries es)
    ∧ (DiaryEntry.entry_uuid <$> es) !! 0%nat = Some (text "uuid-4")
    ∧ length es = 4%nat.
Proof.
  edestruct (create_then_list utc scan_order
               (demo_create "uuid-4" 1711929600) 70 demo_store)
    as (user & old & es & _ & _ & Hes & _ & _);
    [vm_compute; reflexivity|].
  exists es. split; [exact Hes|].
  vm_compute in Hes. injection Hes as <-. split; reflexivity.
Defined.

(** *** Lookups that fail *)

(** X5: for a device id that the driver can send and that no user row
    carries, both [get_diary_entries] and [update_diary_entry] raise
    status 404 "Device not registered"; the update leaves the store as it
    was, whatever uuid and fields it names. *)
Theorem unknown_device_not_found tz tie device_id db :
  sendable device_id →
  Forall (λ u, User.device_id u ≠ device_id) (users db) →
  get_diary_entries tie device_id db
  = http 404 (Text "Device not registered")
  ∧ ∀ entry_uuid entry_data now,
      update_diary_entry tz entry_uuid entry_data device_id now db
      = (http 404 (Text "Device not registered"), db).
Proof.
  intros Hs H. rewrite Forall_forall in H.
  apply (query_user_None db _ Hs) in H.
  unfold get_diary_entries, update_diary_entry. by rewrite H.
Qed.

(** A device the small store does not know. *)
Lemma unknown_device_not_found_witness :
  get_diary_entries scan_order (text "dev-z") demo_store
  = http 404 (Text "Device not registered")
  ∧ update_diary_entry utc (text "uuid-1") (only_notes (Some (text "x")))
                       (text "dev-z") 50 demo_store
    = (http 404 (Text "Device not registered"), demo_store).
Proof.
  destruct (unknown_device_not_found utc scan_order (text "dev-z")
              demo_store) as [Hl Hu].
  - vm_compute. exact I.
  - repeat (apply Forall_cons_2; [discriminate|]). apply Forall_nil_2.
  - split; [exact Hl | apply Hu].
Defined.

(** X6: for a registered device and an [entry_uuid] that the driver can
    send and that no entry of its user carries, [update_diary_entry]
    raises status 404 "Diary entry not found", a message other than the
    one for an unknown device, and leaves the store as it was.  An entry
    of another user with that uuid is not found. *)
Theorem update_unknown_entry tz entry_uuid entry_data device_id now db
    user :
  query_user db device_id = inr (Some user) →
  sendable entry_uuid →
  Forall (λ e, ¬ is_entry_of (User.user_id user) entry_uuid e)
         (diary_entries db) →
  update_diary_entry tz entry_uuid entry_data device_id now db
  = (http 404 (Text "Diary entry not found"), db).
Proof.
  intros Hu Hs He. unfold update_diary_entry. rewrite Hu.
  by rewrite (query_entry_None db _ _ Hs He).
Qed.

(** A second device of the small store names an entry of the first. *)
Lemma update_unknown_entry_witness :
  let db := (register_device {| UserCreate.device_id := text "dev-b" |} 30
                             demo_store).2 in
  update_diary_entry utc (text "uuid-1")
    (only_notes (Some (text "mine now"))) (text "dev-b") 50 db
  = (http 404 (Text "Diary entry not found"), db).
Proof.
  intros db.
  apply (update_unknown_entry utc (text "uuid-1") _ (text "dev-b") 50 db
           {| User.user_id := 2; User.device_id := text "dev-b";
              User.created_at := 30; User.updated_at := 30 |}).
  - vm_compute. reflexivity.
  - vm_compute. exact I.
  - repeat (apply Forall_cons_2; [intros [? ?]; discriminate|]).
    apply Forall_nil_2.
Defined.

(** X23: a [device_id] the driver cannot send (it holds a NUL character or
    a surrogate) makes the first lookup of every handler raise, and each
    handler turns that into status 500 with its own prefix, the store
    untouched; the same holds for an [entry_uuid] that cannot be sent, in
    the two handlers that look one up for a registered device. *)
Theorem unsendable_lookup_fails tz tie device_id entry_uuid now db :
  (¬ sendable device_id →
   register_device {| UserCreate.device_id := device_id |} now db
   = (http 500 (TextWithError "Registration failed: " [UnsendableString]),
      db)
   ∧ (∀ entry_data,
        DiaryEntryCreate.device_id entry_data = device_id →
        create_diary_entry tz entry_data now db
        = (http 500 (TextWithError "Upload failed: " [UnsendableString]),
           db))
   ∧ get_diary_entries tie device_id db
     = http 500 (TextWithError "Failed to retrieve diary entries: "
                               [UnsendableString])
   ∧ (∀ entry_data,
        update_diary_entry tz entry_uuid entry_data device_id now db
        = (http 500 (TextWithError "Update failed: " [UnsendableString]),
           db)))
  ∧ (∀ user,
       query_user db device_id = inr (Some user) →
       ¬ sendable entry_uuid →
       (∀ entry_data,
          DiaryEntryCreate.device_id entry_data = device_id →
          DiaryEntryCreate.entry_uuid entry_data = entry_uuid →
          create_diary_entry tz entry_data now db
          = (http 500 (TextWithError "Upload failed: " [UnsendableString]),
             db))
       ∧ (∀ entry_data,
            update_diary_entry tz entry_uuid entry_data device_id now db
            = (http 500 (TextWithError "Update failed: "
                                       [UnsendableString]), db))).
Proof.
  split.
  - intros Hs%(query_user_unsendable db).
    unfold register_device, create_diary_entry, get_diary_entries,
      update_diary_entry. cbn [UserCreate.device_id].
    split_and!; [by rewrite Hs| |by rewrite Hs|by rewrite Hs].
    intros entry_data ->. by rewrite Hs.
  - intros user Hu Hs.
    pose proof (query_entry_unsendable db (User.user_id user) _ Hs) as He.
    unfold create_diary_entry, update_diary_entry. split.
    + intros entry_data -> ->. by rewrite Hu, He.
    + intros entry_data. by rewrite Hu, He.
Qed.

(** A NUL in the device id, and a NUL in the uuid for a known device. *)
Lemma unsendable_lookup_fails_witness :
  get_diary_entries scan_order nul_device_id demo_store
  = http 500 (TextWithError "Failed to retrieve diary entries: "
                            [UnsendableString])
  ∧ update_diary_entry utc [0%N] nothing_set (text "dev-a") 50 demo_store
    = (http 500 (TextWithError "Update failed: " [UnsendableString]),
       demo_store).
Proof.
  split.
  - destruct (unsendable_lookup_fails utc scan_order nul_device_id [] 50
                demo_store) as [H _].
    destruct H as (_ & _ & H & _); [vm_compute; exact id|exact H].
  - destruct (unsendable_lookup_fails utc scan_order (text "dev-a") [0%N]
                50 demo_store) as [_ H].
    destruct (H demo_user) as [_ H'];
      [vm_compute; reflexivity|vm_compute; exact id|apply H'].
Defined.


(** *** What an update writes *)



Lemma update_diary_entry_returns tz entry_uuid entry_data device_id now db
    user i row resp db' :
  query_user db device_id = inr (Some user) →
  query_entry db (User.user_id user) entry_uuid = inr (Some (i, row)) →
  update_diary_entry tz entry_uuid entry_data device_id now db
  = (Returns resp, db') →
  ∃ t,
    (t = DiaryEntry.updated_at row ∧ db' = db
     ∧ patched tz entry_data row t = row
     ∨ t = now
       ∧ db' = store_with_update db i (patched tz entry_data row t))
    ∧ accepted entry_data row = true.
Proof.
  intros Hu He H.
  destruct (update_found_cases tz entry_uuid entry_data device_id now db
              user i row Hu He)
    as [(t & db1 & Hcase & A & H')|(es & _ & _ & H')];
    rewrite H' in H; [|done].
  injection H as _ <-. by exists t.
Qed.



(** X9: an update whose request sets no field at all succeeds on any
    existing entry and changes nothing: no row is rewritten and
    [updated_at] stays as it was. *)
Theorem update_nothing_set tz entry_uuid device_id now db user i row :
  query_user db device_id = inr (Some user) →
  query_entry db (User.user_id user) entry_uuid = inr (Some (i, row)) →
  update_diary_entry tz entry_uuid nothing_set device_id now db
  = (ok "Diary entry updated successfully"
        [("entry_id", VInt (DiaryEntry.entry_id row));
         ("entry_uuid", VStr (DiaryEntry.entry_uuid row))],
     db).
Proof.
  intros Hu He.
  rewrite (update_diary_entry_found _ _ _ _ _ _ _ _ _ Hu He).
  rewrite flush_update_merged.
  unfold DiaryEntry.unchanged, DiaryEntry.row_values, merged_values.
  cbn [zip zip_with forallb fst snd nothing_set field_value
       DiaryEntryUpdate.entry_date DiaryEntryUpdate.mood_score
       DiaryEntryUpdate.mood_percentage DiaryEntryUpdate.activities
       DiaryEntryUpdate.notes].
  by rewrite !py_eq_refl.
Qed.

(** The empty update of the second entry of the small store. *)
Lemma update_nothing_set_witness :
  update_diary_entry utc (text "uuid-2") nothing_set (text "dev-a") 50
                     demo_store
  = (ok "Diary entry updated successfully"
        [("entry_id", VInt 2); ("entry_uuid", VStr (text "uuid-2"))],
     demo_store).
Proof.
  apply (update_nothing_set utc (text "uuid-2") (text "dev-a") 50
           demo_store demo_user 1%nat demo_entry_2);
    vm_compute; reflexivity.
Defined.




(** *** Invariants of the reachable stores *)

(** X12: on every reachable store the generated identities are primary
    keys: no two users share a [user_id], no two diary entries share an
    [entry_id], and every key in use is below the value its sequence
    gives next, so the next insert gets a fresh key. *)
Theorem reachable_keys_ok tz db : reachable tz db → keys_ok db.
Proof.
  induction 1 as [|user_data now db _ IH|entry_data now db _ IH
                  |entry_uuid entry_data device_id now db _ IH].
  - repeat split; constructor.
  - by apply keys_ok_register.
  - by apply keys_ok_create.
  - by apply keys_ok_update.
Qed.

(** The small store. *)
Lemma reachable_keys_ok_witness : keys_ok demo_store.
Proof. apply (reachable_keys_ok utc). apply demo_store_reachable. Defined.

(** *** register_device *)

(** X14: a registration never touches the diary entries, never removes or
    changes a user row (the old rows are a prefix of the new ones), and
    every device that was registered before resolves to the same user and
    lists the same entries afterwards. *)
Theorem register_keeps_others tie user_data now db :
  diary_entries (register_device user_data now db).2 = diary_entries db
  ∧ users db `prefix_of` users (register_device user_data now db).2
  ∧ ∀ device_id user,
      query_user db device_id = inr (Some user) →
      query_user (register_device user_data now db).2 device_id
      = inr (Some user)
      ∧ get_diary_entries tie device_id (register_device user_data now db).2
        = get_diary_entries tie device_id db.
Proof.
  destruct (register_device_store user_data now db)
    as [->|(kept & _ & _ & _ & ->)]; [done|].
  unfold store_with_user; cbn [users diary_entries].
  split_and!; [done|by eexists|].
  intros device_id user Hq.
  assert (query_user
            {| users := users db ++ [new_user kept now db];
               diary_entries := diary_entries db;
               users_seq := users_seq db + 1;
               diary_entries_seq := diary_entries_seq db |} device_id
          = inr (Some user)) as Hq'.
  { unfold query_user in *. cbn [users].
    destruct (sendable device_id); [|done]. f_equal. injection Hq as Hq.
    destruct (list_find _ (users db)) as [[i u]|] eqn:E; [|done].
    by rewrite (list_find_app_l _ _ _ _ _ E). }
  split; [done|]. unfold get_diary_entries. by rewrite Hq, Hq'.
Qed.

(** X15: the first registration of a device id of at most 255 characters
    that the driver can send returns "Device registered successfully"
    with the value of the users sequence as [user_id], appends one user
    row carrying the device id, and from then on the device resolves to
    that row. *)
Theorem register_new_device device_id now db :
  sendable device_id →
  (length device_id ≤ User.device_id_max)%nat →
  Forall (λ u, User.device_id u ≠ device_id) (users db) →
  register_device {| UserCreate.device_id := device_id |} now db
  = (ok "Device registered successfully"
        [("user_id", VInt (users_seq db)); ("device_id", VStr device_id)],
     store_with_user db (new_user device_id now db))
  ∧ query_user (store_with_user db (new_user device_id now db)) device_id
    = inr (Some (new_user device_id now db)).
Proof.
  intros Hs Hlen Hnew. rewrite Forall_forall in Hnew.
  pose proof (query_user_None db _ Hs Hnew) as Hq.
  split; [|by apply query_user_after_insert].
  by apply register_device_new; [|apply fit_short|].
Qed.

(** A second device on the small store. *)
Lemma register_new_device_witness :
  register_device {| UserCreate.device_id := text "dev-b" |} 30 demo_store
  = (ok "Device registered successfully"
        [("user_id", VInt 2); ("device_id", VStr (text "dev-b"))],
     store_with_user demo_store (new_user (text "dev-b") 30 demo_store)).
Proof.
  apply (register_new_device (text "dev-b") 30 demo_store).
  - vm_compute. exact I.
  - vm_compute. lia.
  - repeat (apply Forall_cons_2; [discriminate|]). apply Forall_nil_2.
Defined.




(** X16: on a reachable store, a device registered for the first time owns
    nothing: its listing right after the registration is the empty list,
    because no diary entry can carry the key the users sequence had not
    yet given out. *)
Theorem new_device_lists_nothing tz tie device_id now db :
  reachable tz db →
  sendable device_id →
  (length device_id ≤ User.device_id_max)%nat →
  Forall (λ u, User.device_id u ≠ device_id) (users db) →
  get_diary_entries tie device_id
    (register_device {| UserCreate.device_id := device_id |} now db).2
  = Returns (Entries []).
Proof.
  intros Hr Hs Hlen Hnew.
  rewrite Forall_forall in Hnew.
  pose proof (query_user_None db _ Hs Hnew) as Hq.
  rewrite (register_device_new _ _ _ device_id Hq (fit_short _ _ Hlen) Hnew).
  unfold get_diary_entries. cbn [snd].
  rewrite (query_user_after_insert device_id now db Hq).
  cbn [store_with_user diary_entries new_user User.user_id].
  destruct (reachable_store_ok_aux tz db Hr) as (_ & _ & Hfk).
  destruct (reachable_keys_ok_aux tz db Hr) as (Hlt & _).
  rewrite filter_none; [done|].
  eapply Forall_impl; [exact Hfk|]. intros e (_ & _ & _ & _ & _ & _ & He).
  apply Exists_exists in He as (u & Hin & Hid).
  rewrite Forall_forall in Hlt. specialize (Hlt u Hin). lia.
Qed.

(** A second device on the small store. *)
Lemma new_device_lists_nothing_witness :
  get_diary_entries scan_order (text "dev-b")
    (register_device {| UserCreate.device_id := text "dev-b" |} 30
                     demo_store).2
  = Returns (Entries []).
Proof.
  apply (new_device_lists_nothing utc scan_order (text "dev-b") 30
           demo_store).
  - apply demo_store_reachable.
  - vm_compute. exact I.
  - vm_compute. lia.
  - repeat (apply Forall_cons_2; [discriminate|]). apply Forall_nil_2.
Defined.

(** *** Listings after writes *)

(** X17: what one user writes never shows in another user's listing: for
    two registered devices that resolve to different users, no update and
    no create sent by the first changes what the second lists. *)
Theorem other_user_listing_kept tz tie device_id device_id' db user user' :
  query_user db device_id = inr (Some user) →
  query_user db device_id' = inr (Some user') →
  User.user_id user' ≠ User.user_id user →
  (∀ entry_uuid entry_data now,
     get_diary_entries tie device_id'
       (update_diary_entry tz entry_uuid entry_data device_id now db).2
     = get_diary_entries tie device_id' db)
  ∧ (∀ entry_data now,
       DiaryEntryCreate.device_id entry_data = device_id →
       get_diary_entries tie device_id'
         (create_diary_entry tz entry_data now db).2
       = get_diary_entries tie device_id' db).
Proof.
  intros Hu Hu' Hne. split.
  - intros entry_uuid entry_data now.
    destruct (update_diary_entry_store tz entry_uuid entry_data device_id
                now db)
      as [->|(u & i & row & Hq & He & _ & ->)]; [done|].
    assert (u = user) as -> by congruence.
    apply query_entry_Some in He as (Hi & Hown & _).
    rewrite (get_diary_entries_same_users tie _ db) by done.
    unfold get_diary_entries. rewrite Hu'.
    cbn [diary_entries store_with_update].
    rewrite filter_app, filter_cons, decide_False, filter_nil, app_nil_r
      by (cbn; congruence).
    rewrite <- (take_drop_middle _ _ _ Hi) at 2.
    rewrite delete_take_drop, !filter_app, filter_cons, decide_False;
      [done|congruence].
  - intros entry_data now <-.
    destruct (create_diary_entry_store tz entry_data now db)
      as [->|(u & Hq & _ & _ & ->)]; [done|].
    assert (u = user) as -> by congruence.
    rewrite (get_diary_entries_same_users tie _ db) by done.
    unfold get_diary_entries. rewrite Hu'.
    cbn [diary_entries store_with_entry].
    rewrite filter_app, filter_cons, decide_False, filter_nil by (by cbn).
    by rewrite app_nil_r.
Qed.

(** Two devices with an entry each: the second device rewrites its own. *)
Lemma other_user_listing_kept_witness :
  let db0 := (register_device {| UserCreate.device_id := text "dev-b" |} 30
                              demo_store).2 in
  let db := (create_diary_entry utc
               {| DiaryEntryCreate.entry_uuid := text "uuid-1";
                  DiaryEntryCreate.entry_date := Naive 1711929600;
                  DiaryEntryCreate.mood_score := 2;
                  DiaryEntryCreate.mood_percentage := 40;
                  DiaryEntryCreate.activities := Some [text "walk"];
                  DiaryEntryCreate.notes := None;
                  DiaryEntryCreate.device_id := text "dev-b" |} 70 db0).2 in
  get_diary_entries scan_order (text "dev-a")
    (update_diary_entry utc (text "uuid-1")
       (only_notes (Some (text "b was here"))) (text "dev-b") 90 db).2
  = get_diary_entries scan_order (text "dev-a") db.
Proof.
  intros db0 db.
  edestruct (other_user_listing_kept utc scan_order (text "dev-b")
               (text "dev-a") db) as [H _];
    [vm_compute; reflexivity | vm_compute; reflexivity | | apply H].
  vm_compute. discriminate.
Defined.

(** X19: after an update that succeeded, the listing of the device shows
    the entry as the update left it: it is the earlier listing with the
    old row replaced by the merge of the request into it, and every other
    entry as before. *)
Theorem update_then_list tz tie entry_uuid entry_data device_id now db user
    i row resp db' :
  query_user db device_id = inr (Some user) →
  query_entry db (User.user_id user) entry_uuid = inr (Some (i, row)) →
  update_diary_entry tz entry_uuid entry_data device_id now db
  = (Returns resp, db') →
  ∃ t rest old es,
    (t = DiaryEntry.updated_at row ∨ t = now)
    ∧ get_diary_entries tie device_id db = Returns (Entries old)
    ∧ get_diary_entries tie device_id db' = Returns (Entries es)
    ∧ old ≡ₚ row :: rest
    ∧ es ≡ₚ patched tz entry_data row t :: rest.
Proof.
  intros Hu He H.
  destruct (update_diary_entry_returns _ _ _ _ _ _ _ _ _ _ _ Hu He H)
    as (t & Hcase & _).
  apply query_entry_Some in He as (Hi & Hown & _).
  exists t,
    (filter (λ e, DiaryEntry.user_id e = User.user_id user)
            (delete i (diary_entries db))).
  assert (users db' = users db) as Hus
    by by destruct Hcase as [(_ & -> & _)|[_ ->]].
  rewrite (get_diary_entries_same_users tie _ db db') by done.
  unfold get_diary_entries. rewrite Hu.
  eexists _, _. split_and!; try done.
  - destruct Hcase as [(-> & _)|[-> _]]; eauto.
  - rewrite order_by_entry_date_desc_perm.
    rewrite (delete_Permutation _ _ _ Hi) at 1.
    by rewrite filter_cons, decide_True.
  - rewrite order_by_entry_date_desc_perm.
    assert (diary_entries db'
            ≡ₚ patched tz entry_data row t :: delete i (diary_entries db))
      as ->.
    { destruct Hcase as [(_ & -> & ->)|[_ ->]];
        [by apply delete_Permutation
        |by apply (store_with_update_perm _ _ row)]. }
    by rewrite filter_cons, decide_True.
Qed.

(** A change of notes on the second entry of the small store. *)
Lemma update_then_list_witness :
  ∃ es,
    get_diary_entries scan_order (text "dev-a")
      (update_diary_entry utc (text "uuid-2")
         (only_notes (Some (text "calm"))) (text "dev-a") 50 demo_store).2
    = Returns (Entries es)
    ∧ (DiaryEntry.notes <$> es) = [Some (text "calm"); Some []; Some []].
Proof.
  edestruct (update_then_list utc scan_order (text "uuid-2")
               (only_notes (Some (text "calm"))) (text "dev-a") 50
               demo_store demo_user 1%nat demo_entry_2)
    as (t & rest & old & es & _ & _ & Hes & _ & _);
    [vm_compute; reflexivity | vm_compute; reflexivity
     | vm_compute; reflexivity |].
  exists es. split; [exact Hes|].
  vm_compute in Hes. by injection Hes as <-.
Defined.

(** *** Nothing is deleted, and the first entry of a new device *)

(** X20: no handler deletes or re-identifies anything: after a
    registration the user rows of before are a prefix of the user rows of
    after and the diary entries are untouched; after a create the users
    are untouched and the diary entries of before are a prefix of those of
    after; after an update the users are untouched and the diary entries
    carry the same identities ([entry_id], [user_id], [entry_uuid],
    [created_at]), each as often as before, in whatever order the store
    now scans them. *)
Theorem handlers_never_delete tz user_data create_data entry_uuid
    update_data device_id now db :
  (users db `prefix_of` users (register_device user_data now db).2
   ∧ diary_entries (register_device user_data now db).2 = diary_entries db)
  ∧ (users (create_diary_entry tz create_data now db).2 = users db
     ∧ diary_entries db
       `prefix_of`
       diary_entries (create_diary_entry tz create_data now db).2)
  ∧ (users
       (update_diary_entry tz entry_uuid update_data device_id now db).2
     = users db
     ∧ identity <$> diary_entries
         (update_diary_entry tz entry_uuid update_data device_id now db).2
       ≡ₚ identity <$> diary_entries db
     ∧ length (diary_entries
         (update_diary_entry tz entry_uuid update_data device_id now db).2)
       = length (diary_entries db)).
Proof.
  split_and!.
  - destruct (register_device_store user_data now db)
      as [->|(kept & _ & _ & _ & ->)]; [done|]. by eexists.
  - by destruct (register_device_store user_data now db)
      as [->|(kept & _ & _ & _ & ->)].
  - by destruct (create_diary_entry_store tz create_data now db)
      as [->|(user & _ & _ & _ & ->)].
  - destruct (create_diary_entry_store tz create_data now db)
      as [->|(user & _ & _ & _ & ->)]; [done|]. by eexists.
  - by destruct (update_diary_entry_store tz entry_uuid update_data
                   device_id now db)
      as [->|(u & i & row & _ & _ & _ & ->)].
  - destruct (update_diary_entry_store tz entry_uuid update_data device_id
                now db)
      as [->|(u & i & row & _ & He & _ & ->)]; [done|].
    apply query_entry_Some in He as (Hi & _ & _).
    rewrite (store_with_update_perm _ _ row) by done.
    by rewrite (delete_Permutation (diary_entries db) i row) at 2 by done.
  - destruct (update_diary_entry_store tz entry_uuid update_data device_id
                now db)
      as [->|(u & i & row & _ & He & _ & ->)]; [done|].
    apply query_entry_Some in He as (Hi & _ & _).
    rewrite (store_with_update_perm _ _ row) by done.
    by rewrite (delete_Permutation (diary_entries db) i row) at 2 by done.
Qed.


